(** * gnomad-mcp: version-aware query dispatch and schema walking

    A shallow embedding of
      - [gnomad/query.py]            (version registry, dispatcher, envelope),
      - [gnomad/queries/v2|v3|v4.py] (supported query lists),
      - [gnomad/schemas/schema_analyzer.py] (type-graph walker),
      - [gnomad/schema2query.py]     (query synthesizer),
      - [server.py]                  (liftover tool),
    together with the properties of the specification that concern them. *)

From Stdlib Require Import ZArith Ascii String List Lia.
From stdpp Require Import base option gmap strings list fin_maps pretty.

Set Warnings "-register-all,-clear-no-such-hyp".

Open Scope string_scope.

(** ** Python values, exceptions and outcomes *)

Module Py.

(** The scalar values a query variable can hold. *)
Inductive pyval : Type :=
  | PyNone
  | PyStr (s : string)
  | PyInt (n : Z).

#[global] Instance pyval_eq_dec : EqDecision pyval.
Proof. solve_decision. Defined.

(** Python truthiness: [None], the empty string and [0] are false. *)
Definition truthy (v : pyval) : bool :=
  match v with
  | PyNone => false
  | PyStr s => negb (String.eqb s "")
  | PyInt n => negb (Z.eqb n 0)
  end.

(** [v == s] for a string literal [s]. *)
Definition eq_str (v : pyval) (s : string) : bool :=
  match v with
  | PyStr t => String.eqb t s
  | _ => false
  end.

Definition hex_digit (n : N) : ascii :=
  match n with
  | 0 => "0" | 1 => "1" | 2 => "2" | 3 => "3" | 4 => "4" | 5 => "5"
  | 6 => "6" | 7 => "7" | 8 => "8" | 9 => "9" | 10 => "a" | 11 => "b"
  | 12 => "c" | 13 => "d" | 14 => "e" | _ => "f"
  end%N%char.

Fixpoint contains_char (c : ascii) (s : string) : bool :=
  match s with
  | EmptyString => false
  | String d r => Ascii.eqb c d || contains_char c r
  end.

Definition squote : ascii := ascii_of_nat 39.
Definition dquote : ascii := ascii_of_nat 34.

(** One character of [repr] of a [str], for the quote character [q]. *)
Definition repr_char (q c : ascii) : string :=
  let n := N_of_ascii c in
  if Ascii.eqb c q || Ascii.eqb c "\"%char then String "\"%char (String c EmptyString)
  else if (n =? 9)%N then "\t"
  else if (n =? 10)%N then "\n"
  else if (n =? 13)%N then "\r"
  else if (n <? 32)%N || (n =? 127)%N then
    String "\"%char (String "x"%char
      (String (hex_digit (n / 16)) (String (hex_digit (n mod 16)) EmptyString)))
  else String c EmptyString.

Fixpoint repr_body (q : ascii) (s : string) : string :=
  match s with
  | EmptyString => EmptyString
  | String c r => repr_char q c +:+ repr_body q r
  end.

(** [repr(s)] of a [str]: single quotes unless the text has a single quote
    and no double quote; bytes above 127 are kept (printable text). *)
Definition repr_str (s : string) : string :=
  let q := if contains_char squote s && negb (contains_char dquote s)
           then dquote else squote in
  String q (repr_body q s +:+ String q EmptyString).

(** [str(v)], as an f-string renders a value. *)
Definition str (v : pyval) : string :=
  match v with
  | PyNone => "None"
  | PyStr s => s
  | PyInt n => pretty n
  end.

Definition repr (v : pyval) : string :=
  match v with
  | PyStr s => repr_str s
  | _ => str v
  end.

Fixpoint join (sep : string) (l : list string) : string :=
  match l with
  | [] => ""
  | [x] => x
  | x :: r => x +:+ sep +:+ join sep r
  end.

(** [repr] of a list of strings, as [f"{SUPPORTED_QUERIES}"] prints it. *)
Definition repr_list (l : list string) : string :=
  "[" +:+ join ", " (map repr_str l) +:+ "]".

(** The exceptions (subclasses of [Exception]) the modelled code meets. *)
Inductive exn : Type :=
  | ValueError (msg : string)
  | KeyError (key : pyval)
  | OtherError (cls msg : string).

(** [str(e)]: a [KeyError] prints the [repr] of its key. *)
Definition str_exn (e : exn) : string :=
  match e with
  | ValueError msg => msg
  | KeyError k => repr k
  | OtherError _ msg => msg
  end.

(** A call either returns a value or raises. *)
Inductive outcome (A : Type) : Type :=
  | Return (a : A)
  | Raise (e : exn).
Arguments Return {A} a.
Arguments Raise {A} e.

Definition bind {A B} (m : outcome A) (k : A -> outcome B) : outcome B :=
  match m with
  | Return a => k a
  | Raise e => Raise e
  end.

Definition raises {A} (m : outcome A) : Prop := exists e, m = Raise e.

(** [d.get(k)] on a dict of variables: [None] when the key is absent. *)
Definition dict_get (d : gmap string pyval) (k : string) : pyval :=
  default PyNone (d !! k).

(** A dict literal with string keys and values, in declaration order. *)
Fixpoint assoc (k : string) (d : list (string * string)) : option string :=
  match d with
  | [] => None
  | (k', v) :: r => if String.eqb k k' then Some v else assoc k r
  end.

(** [k in d] for such a literal and any value [k]. *)
Definition dict_mem (k : pyval) (d : list (string * string)) : bool :=
  match k with
  | PyStr s => bool_decide (is_Some (assoc s d))
  | _ => false
  end.

(** [d[k]]: raises [KeyError(k)] when [k] is not a key. *)
Definition dict_getitem (d : list (string * string)) (k : pyval) : outcome string :=
  match k with
  | PyStr s => match assoc s d with
               | Some v => Return v
               | None => Raise (KeyError k)
               end
  | _ => Raise (KeyError k)
  end.

End Py.

Import Py.

Notation "x <- m ;; k" := (bind m (fun x => k))
  (at level 100, m at next level, right associativity, only parsing).

(** ** Version registry ([gnomad/query.py], [gnomad/queries/*.py]) *)

Definition GNOMAD_API_URL : string := "https://gnomad.broadinstitute.org/api".

Definition DATASET_MAP : list (string * string) :=
  [("v2", "gnomad_r2_1"); ("v3", "gnomad_r3"); ("v4", "gnomad_r4")].

Definition ALL_DATASET_TO_VERSION : list (string * string) :=
  [("gnomad_r2_1", "v2");
   ("gnomad_sv_r2_1", "v2");
   ("gnomad_r3", "v3");
   ("gnomad_r4", "v4");
   ("gnomad_sv_r4", "v4");
   ("gnomad_cnv_r4", "v4")].

Definition REF_GENOME_MAP : list (string * string) :=
  [("v2", "GRCh37"); ("v3", "GRCh38"); ("v4", "GRCh38")].

Module V2.
Definition SUPPORTED_QUERIES : list string :=
  ["variant"; "clinvar_variant"; "structural_variant"; "gene_search";
   "variant_search"; "liftover"; "meta"].
End V2.

Module V3.
Definition SUPPORTED_QUERIES : list string :=
  ["variant"; "clinvar_variant"; "gene_search"; "variant_search"; "meta"].
End V3.

Module V4.
Definition SUPPORTED_QUERIES : list string :=
  ["gene"; "region"; "variant"; "clinvar_variant"; "mitochondrial_variant";
   "structural_variant"; "copy_number_variant"; "gene_search";
   "variant_search"; "short_tandem_repeat"; "meta"].
End V4.

(** The loop [for ver, rg in REF_GENOME_MAP.items()] of [detect_version]:
    the first version whose genome equals a truthy [reference_genome]. *)
Fixpoint match_ref_genome (items : list (string * string)) (reference_genome : pyval)
  : option string :=
  match items with
  | [] => None
  | (ver, rg) :: rest =>
      if truthy reference_genome && eq_str reference_genome rg then Some ver
      else match_ref_genome rest reference_genome
  end.

Definition detect_version (dataset reference_genome : pyval) : outcome string :=
  if truthy dataset && dict_mem dataset ALL_DATASET_TO_VERSION then
    dict_getitem ALL_DATASET_TO_VERSION dataset
  else
    match match_ref_genome REF_GENOME_MAP reference_genome with
    | Some ver => Return ver
    | None =>
        Raise (ValueError ("Cannot detect version for dataset=" +:+ str dataset
                           +:+ ", reference_genome=" +:+ str reference_genome))
    end.

(** The [if]/[elif] chain importing the version's query list. *)
Definition version_queries (version : pyval) : outcome (list string) :=
  if eq_str version "v2" then Return V2.SUPPORTED_QUERIES
  else if eq_str version "v3" then Return V3.SUPPORTED_QUERIES
  else if eq_str version "v4" then Return V4.SUPPORTED_QUERIES
  else Raise (ValueError ("Unknown gnomAD version: " +:+ str version)).

Definition in_list (x : string) (l : list string) : bool :=
  existsb (String.eqb x) l.

Definition unsupported_message (query_name : string) (version : pyval)
    (supported : list string) : string :=
  "Query '" +:+ query_name +:+ "' is not supported in gnomAD " +:+ str version
  +:+ " (supported: " +:+ repr_list supported +:+ ")".

Definition inconsistent_message (version : pyval) (expected : string) : string :=
  "Inconsistent version: got " +:+ str version +:+ ", expected " +:+ expected.

(** [os.path.join('gnomad', 'queries', version, f'{query_name}.graphql')]
    for a relative [version] and [query_name]. *)
Definition query_path (version : pyval) (query_name : string) : string :=
  "gnomad/queries/" +:+ str version +:+ "/" +:+ query_name +:+ ".graphql".

(** ** Query dispatcher ([run_query], [run_query_with_metadata]) *)

Section Dispatcher.

(** Decoded JSON results of the API. *)
Variable json : Type.

(** The query document store: the text of the file at a path, if it exists. *)
Variable read_file : string -> option string.

(** The transport collaborator [execute_query_sync(query_str, variables)]. *)
Variable execute_query_sync : string -> gmap string pyval -> outcome json.

(** What [run_query] returns: the dict [{"error": msg}] or the API result. *)
Inductive response : Type :=
  | ErrorDict (msg : string)
  | Result (j : json).

(** Body of the first [try]: the explicit hint if truthy, else detection. *)
Definition resolve_version (variables : gmap string pyval) : outcome pyval :=
  let version := dict_get variables "version" in
  if negb (truthy version) then
    v <- detect_version (dict_get variables "dataset")
                        (dict_get variables "reference_genome") ;;
    Return (PyStr v)
  else Return version.

(** Body of the second [try]. *)
Definition complete_dataset (variables : gmap string pyval) (version : pyval)
  : outcome pyval :=
  let dataset := dict_get variables "dataset" in
  if negb (truthy dataset) then
    d <- dict_getitem DATASET_MAP version ;; Return (PyStr d)
  else Return dataset.

(** Body of the third [try]. *)
Definition complete_reference_genome (variables : gmap string pyval) (version : pyval)
  : outcome pyval :=
  let reference_genome := dict_get variables "reference_genome" in
  if negb (truthy reference_genome) then
    g <- dict_getitem REF_GENOME_MAP version ;; Return (PyStr g)
  else Return reference_genome.

(** [try: body except ValueError: return {"error": msg}], then [k]. *)
Definition try_value_error {A} (body : outcome A) (msg : string)
    (k : A -> outcome response) : outcome response :=
  match body with
  | Return a => k a
  | Raise (ValueError _) => Return (ErrorDict msg)
  | Raise e => Raise e
  end.

(** Lines 181-191: consistency check, document lookup, execution. *)
Definition check_and_execute (query_name : string) (variables : gmap string pyval)
    (version dataset reference_genome : pyval) : outcome response :=
  expected <- detect_version dataset reference_genome ;;
  if negb (eq_str version expected) then
    (* the message calls [detect_version] once more, with the same result *)
    Raise (ValueError (inconsistent_message version expected))
  else
    let path := query_path version query_name in
    match read_file path with
    | None => Raise (ValueError ("Query file not found: " +:+ path))
    | Some query_str =>
        j <- execute_query_sync query_str variables ;; Return (Result j)
    end.

(** Lines 169-191. *)
Definition validate_and_execute (query_name : string) (variables : gmap string pyval)
    (version dataset reference_genome : pyval) : outcome response :=
  supported <- version_queries version ;;
  if negb (in_list query_name supported) then
    Raise (ValueError (unsupported_message query_name version supported))
  else check_and_execute query_name variables version dataset reference_genome.

Definition run_query (query_name : string) (variables : gmap string pyval)
  : outcome response :=
  try_value_error (resolve_version variables)
    "Cannot determine version from dataset/reference_genome/version."
    (fun version =>
  try_value_error (complete_dataset variables version)
    "Cannot determine dataset from dataset/reference_genome/version."
    (fun dataset =>
  try_value_error (complete_reference_genome variables version)
    "Cannot determine reference_genome from dataset/reference_genome/version."
    (fun reference_genome =>
  validate_and_execute query_name variables version dataset reference_genome))).

Record envelope : Type := {
  endpoint : string;
  request_query : string;
  request_variables : gmap string pyval;
  response_of : response
}.

(** [try: response = run_query(...) except Exception as e:
    response = {"error": str(e)}]. *)
Definition run_query_with_metadata (query_name : string)
    (variables : gmap string pyval) : outcome envelope :=
  let endpoint := GNOMAD_API_URL in
  let request_query := query_name in
  let request_variables := variables (* variables.copy(); [run_query] only reads it *) in
  response <- match run_query query_name variables with
              | Return r => Return r
              | Raise e => Return (ErrorDict (str_exn e))
              end ;;
  Return {| endpoint := endpoint;
            request_query := request_query;
            request_variables := request_variables;
            response_of := response |}.

(** The calls of a batch, made one after the other as the loop of [main]
    makes them (each record already split into query name and variables):
    an exception in one call would end the loop. *)
Fixpoint run_batch (calls : list (string * gmap string pyval))
  : outcome (list envelope) :=
  match calls with
  | [] => Return []
  | (qname, params) :: rest =>
      result <- run_query_with_metadata qname params ;;
      results <- run_batch rest ;;
      Return (result :: results)
  end.

End Dispatcher.

Arguments ErrorDict {json} msg.
Arguments Result {json} j.

(** ** Schema introspection data ([schema_analyzer.py], [schema2query.py]) *)

(** A type descriptor [{"kind": .., "name": .., "ofType": ..}]; [None]
    stands for a key that is absent or [null]. *)
Inductive type_info : Type :=
  | TypeInfo (kind : option string) (name : option string) (ofType : option type_info).

Record arg : Type := { arg_name : string; arg_type : type_info }.

(** A field declaration of a type definition. *)
Record field : Type := {
  field_name : string;
  field_type : type_info;
  field_description : option pyval;   (* [None]: no "description" key *)
  field_args : list arg
}.

Record type_def : Type := {
  type_fields : option (list field)   (* [None]: no "fields" key, or [null] *)
}.

(** An entry of a field map; [fi_subfields = None]: no "subfields" key. *)
Inductive field_info : Type :=
  | FieldInfo (fi_type : string) (fi_description : pyval) (fi_args : list arg)
              (fi_subfields : option (list (string * field_info))).

(** Field maps are Python dicts: insertion ordered. *)
Abbreviation field_map := (list (string * field_info)).

(** [d[k] = v] on an insertion-ordered dict: an existing key keeps its
    position, a new key goes last. *)
Fixpoint dict_set {V : Type} (k : string) (v : V) (d : list (string * V))
  : list (string * V) :=
  match d with
  | [] => [(k, v)]
  | (k', v') :: r => if String.eqb k k' then (k, v) :: r else (k', v') :: dict_set k v r
  end.

Definition truthy_str (o : option string) : bool :=
  match o with
  | Some s => negb (String.eqb s "")
  | None => false
  end.

Definition opt_str_is (o : option string) (s : string) : bool :=
  match o with
  | Some t => String.eqb t s
  | None => false
  end.

(** ** Type-graph walker ([SchemaAnalyzer]) *)

Module SchemaAnalyzer.

Definition SCALARS : list string := ["String"; "Int"; "Float"; "Boolean"; "ID"].

(** [type_name in ["String", "Int", "Float", "Boolean", "ID"]]. *)
Definition is_scalar (type_name : option string) : bool :=
  match type_name with
  | Some s => in_list s SCALARS
  | None => false
  end.

Fixpoint _extract_inner_type (type_info : type_info) : option string :=
  match type_info with
  | TypeInfo _ name ofType =>
      if truthy_str name then name
      else match ofType with
           | Some t => _extract_inner_type t
           | None => None
           end
  end.

Fixpoint type_to_string_dict (type_info : type_info) : string :=
  match type_info with
  | TypeInfo kind name ofType =>
      let inner := match ofType with
                   | Some t => type_to_string_dict t
                   | None => "unknown"
                   end in
      if opt_str_is kind "NON_NULL" then inner +:+ "!"
      else if opt_str_is kind "LIST" then "[" +:+ inner +:+ "]"
      else if truthy_str name then default "" name
      else if truthy_str kind then default "" kind
      else "unknown"
  end.

(** [_type_to_string]: a missing descriptor prints as "unknown". *)
Definition _type_to_string (type_info : option type_info) : string :=
  match type_info with
  | Some t => type_to_string_dict t
  | None => "unknown"
  end.

(** The state of a walk: the one [visited] set every recursive call
    receives and mutates. *)
Abbreviation visited_set := (gset (option string)).

Section Walker.

Variable types_map : gmap string type_def.

(** [self.types_map.get(type_name)]. *)
Definition types_map_get (type_name : option string) : option type_def :=
  match type_name with
  | Some s => types_map !! s
  | None => None
  end.

(** The [for field in type_def["fields"]] loop, with [walk] standing for
    the recursive call; the [visited] set is threaded through. *)
Fixpoint collect_fields
    (walk : option string -> visited_set -> option (field_map * visited_set))
    (fs : list field) (fields : field_map) (visited : visited_set)
  : option (field_map * visited_set) :=
  match fs with
  | [] => Some (fields, visited)
  | field :: rest =>
      let inner_type := _extract_inner_type (field_type field) in
      let type := _type_to_string (Some (field_type field)) in
      let description := default (PyStr "") (field_description field) in
      let args := field_args field in
      if negb (is_scalar inner_type) then
        match walk inner_type visited with
        | None => None
        | Some (subfields, visited') =>
            let info :=
              FieldInfo type description args
                (match subfields with [] => None | _ => Some subfields end) in
            collect_fields walk rest (dict_set (field_name field) info fields) visited'
        end
      else
        collect_fields walk rest
          (dict_set (field_name field) (FieldInfo type description args None) fields)
          visited
  end.

(** [get_required_fields_for_type(type_name, visited)] with a bound on the
    recursion depth; the result is the field map and the [visited] set as
    the call leaves it.  [None]: the bound was too small. *)
Fixpoint walk (fuel : nat) (type_name : option string) (visited : visited_set)
  : option (field_map * visited_set) :=
  match fuel with
  | O => None
  | S fuel' =>
      if bool_decide (type_name ∈ visited) then Some ([], visited)
      else
        let visited := {[ type_name ]} ∪ visited in
        if is_scalar type_name || negb (truthy_str type_name) then Some ([], visited)
        else
          match types_map_get type_name with
          | None => Some ([], visited)
          | Some type_def =>
              match type_fields type_def with
              | None => Some ([], visited)
              | Some fs => collect_fields (walk fuel') fs [] visited
              end
          end
  end.

(** A top-level call: [visited] starts as a fresh empty set.  A walk marks a
    defined type at each level of recursion, so one more level than there
    are type definitions is always enough. *)
Definition get_required_fields_for_type (type_name : option string)
  : option field_map :=
  fst <$> walk (S (size types_map)) type_name ∅.

End Walker.

End SchemaAnalyzer.

Import SchemaAnalyzer.

(** *** The walker with its expansions recorded

    The same walk, where every entry of the field map also carries the
    inner type name the walker recursed on.  Erasing the annotation gives
    back [walk] (lemma [walk_annotated_erase] below). *)

Inductive afield : Type :=
  | AField (inner : option string) (fi_type : string) (fi_description : pyval)
           (fi_args : list arg) (sub : option (list (string * afield))).

Abbreviation afield_map := (list (string * afield)).

Fixpoint erase (a : afield) : field_info :=
  match a with
  | AField _ t d args sub =>
      FieldInfo t d args
        (match sub with
         | Some l => Some ((fix go (l : afield_map) : field_map :=
                              match l with
                              | [] => []
                              | (k, x) :: r => (k, erase x) :: go r
                              end) l)
         | None => None
         end)
  end.

Fixpoint erase_map (m : afield_map) : field_map :=
  match m with
  | [] => []
  | (k, x) :: r => (k, erase x) :: erase_map r
  end.

(** The type names expanded (given subfields) inside an entry, in
    depth-first order. *)
Fixpoint expanded (a : afield) : list (option string) :=
  match a with
  | AField inner _ _ _ (Some l) =>
      inner :: (fix go (l : afield_map) : list (option string) :=
                  match l with
                  | [] => []
                  | (_, x) :: r => (expanded x ++ go r)%list
                  end) l
  | AField _ _ _ _ None => []
  end.

Fixpoint expanded_map (m : afield_map) : list (option string) :=
  match m with
  | [] => []
  | (_, x) :: r => (expanded x ++ expanded_map r)%list
  end.

(** [on_path m p]: [p] lists the types expanded along a descent from the
    top of the field map [m]. *)
Inductive on_path : afield_map -> list (option string) -> Prop :=
  | on_path_nil m : on_path m []
  | on_path_step m k inner t d args sub p :
      (k, AField inner t d args (Some sub)) ∈ m ->
      on_path sub p ->
      on_path m (inner :: p).

Section AnnotatedWalker.

Variable types_map : gmap string type_def.

Fixpoint collect_fields_annotated
    (walk : option string -> visited_set -> option (afield_map * visited_set))
    (fs : list field) (fields : afield_map) (visited : visited_set)
  : option (afield_map * visited_set) :=
  match fs with
  | [] => Some (fields, visited)
  | field :: rest =>
      let inner_type := _extract_inner_type (field_type field) in
      let type := _type_to_string (Some (field_type field)) in
      let description := default (PyStr "") (field_description field) in
      let args := field_args field in
      if negb (is_scalar inner_type) then
        match walk inner_type visited with
        | None => None
        | Some (subfields, visited') =>
            let info :=
              AField inner_type type description args
                (match subfields with [] => None | _ => Some subfields end) in
            collect_fields_annotated walk rest
              (dict_set (field_name field) info fields) visited'
        end
      else
        collect_fields_annotated walk rest
          (dict_set (field_name field)
             (AField inner_type type description args None) fields)
          visited
  end.

Fixpoint walk_annotated (fuel : nat) (type_name : option string) (visited : visited_set)
  : option (afield_map * visited_set) :=
  match fuel with
  | O => None
  | S fuel' =>
      if bool_decide (type_name ∈ visited) then Some ([], visited)
      else
        let visited := {[ type_name ]} ∪ visited in
        if is_scalar type_name || negb (truthy_str type_name) then Some ([], visited)
        else
          match types_map_get types_map type_name with
          | None => Some ([], visited)
          | Some type_def =>
              match type_fields type_def with
              | None => Some ([], visited)
              | Some fs => collect_fields_annotated (walk_annotated fuel') fs [] visited
              end
          end
  end.

End AnnotatedWalker.

Definition erase_result (r : afield_map * visited_set) : field_map * visited_set :=
  (erase_map r.1, r.2).

(** What a call guarantees about the types it expanded: they are distinct,
    were not visited before the call, and are visited after it. *)
Definition expands_fresh (type_name : option string) (V : visited_set)
    (r : afield_map * visited_set) : Prop :=
  {[ type_name ]} ∪ V ⊆ r.2
  /\ (r.1 <> [] -> type_name ∉ V)
  /\ NoDup (expanded_map r.1)
  /\ (forall u, u ∈ expanded_map r.1 -> (u ∉ {[ type_name ]} ∪ V) /\ (u ∈ r.2)).

(** The defined types a walk has not marked yet. *)
Definition unvisited_types (types_map : gmap string type_def) (V : visited_set)
  : gset string :=
  filter (fun s => Some s ∉ V) (dom types_map).

(** The entry the walker records for a field, apart from its subfields. *)
Definition entry_of (f : field) (subfields : option field_map) : string * field_info :=
  (field_name f,
   FieldInfo (_type_to_string (Some (field_type f)))
             (default (PyStr "") (field_description f))
             (field_args f) subfields).

(** *** The walker as the specification words it

    [deriveFields(typeName, schema, visited)]: scalars and empty names are
    terminal, a name in [visited] is a cycle break, and each field recurses
    with [visited ∪ {typeName}] -- the set of the current descent path. *)

Section PathScopedWalker.

Variable types_map : gmap string type_def.

Fixpoint collect_fields_path_scoped
    (derive : option string -> option field_map)
    (fs : list field) (fields : field_map) : option field_map :=
  match fs with
  | [] => Some fields
  | field :: rest =>
      let inner_type := _extract_inner_type (field_type field) in
      let type := _type_to_string (Some (field_type field)) in
      let description := default (PyStr "") (field_description field) in
      let args := field_args field in
      if negb (is_scalar inner_type) then
        match derive inner_type with
        | None => None
        | Some subfields =>
            let info :=
              FieldInfo type description args
                (match subfields with [] => None | _ => Some subfields end) in
            collect_fields_path_scoped derive rest
              (dict_set (field_name field) info fields)
        end
      else
        collect_fields_path_scoped derive rest
          (dict_set (field_name field) (FieldInfo type description args None) fields)
  end.

Fixpoint derive_fields_path_scoped (fuel : nat) (type_name : option string)
    (visited : visited_set) : option field_map :=
  match fuel with
  | O => None
  | S fuel' =>
      if is_scalar type_name || negb (truthy_str type_name) then Some []
      else if bool_decide (type_name ∈ visited) then Some []
      else
        match types_map_get types_map type_name with
        | None => Some []
        | Some type_def =>
            match type_fields type_def with
            | None => Some []
            | Some fs =>
                collect_fields_path_scoped
                  (fun t => derive_fields_path_scoped fuel' t ({[ type_name ]} ∪ visited))
                  fs []
            end
        end
  end.

End PathScopedWalker.

(** ** Query synthesizer ([schema2query.py]) *)

Module Schema2Query.

Definition nl : string := String (ascii_of_nat 10) EmptyString.

(** [None.get("kind")]. *)
Definition none_has_no_get : exn :=
  OtherError "AttributeError" "'NoneType' object has no attribute 'get'".

Fixpoint type_to_gql (type_info : type_info) : outcome string :=
  match type_info with
  | TypeInfo kind name ofType =>
      let inner := match ofType with
                   | Some t => type_to_gql t
                   | None => Raise none_has_no_get
                   end in
      if opt_str_is kind "NON_NULL" then s <- inner ;; Return (s +:+ "!")
      else if opt_str_is kind "LIST" then s <- inner ;; Return ("[" +:+ s +:+ "]")
      else if truthy_str name then Return (default "" name)
      else if truthy_str kind then Return (default "" kind)
      else Return "Unknown"
  end.

(** The generator [f"${a['name']}: {type_to_gql(a['type'])}" for a in args]. *)
Fixpoint arg_defs (args : list arg) : outcome (list string) :=
  match args with
  | [] => Return []
  | a :: r =>
      t <- type_to_gql (arg_type a) ;;
      ds <- arg_defs r ;;
      Return (("$" +:+ arg_name a +:+ ": " +:+ t) :: ds)
  end.

Definition build_args (args : list arg) : outcome string :=
  match args with
  | [] => Return ""
  | _ => ds <- arg_defs args ;; Return ("(" +:+ join ", " ds +:+ ")")
  end.

Definition build_arg_values (args : list arg) : string :=
  match args with
  | [] => ""
  | _ => "(" +:+ join ", " (map (fun a => arg_name a +:+ ": $" +:+ arg_name a) args) +:+ ")"
  end.

Fixpoint spaces (n : nat) : string :=
  match n with
  | O => ""
  | S n' => " " +:+ spaces n'
  end.

(** One iteration of the loop of [build_fields]: the line(s) of a field. *)
Fixpoint build_field (indent : nat) (fname : string) (finfo : field_info) : string :=
  let pad := spaces indent in
  match finfo with
  | FieldInfo _ _ _ (Some ((_ :: _) as subfields)) =>
      let sub :=
        join nl ((fix lines (l : field_map) : list string :=
                    match l with
                    | [] => []
                    | (n, i) :: r => build_field (indent + 2) n i :: lines r
                    end) subfields) in
      pad +:+ fname +:+ " {" +:+ nl +:+ sub +:+ nl +:+ pad +:+ "}"
  | _ => pad +:+ fname
  end.

Definition build_fields (fields : field_map) (indent : nat) : string :=
  join nl (map (fun '(n, i) => build_field indent n i) fields).

(** The parts of [qinfo] that [generate_query] reads. *)
Record qinfo : Type := { q_args : list arg; q_fields : field_map }.

Definition generate_query (query_name : string) (qinfo : qinfo) : outcome string :=
  let args := q_args qinfo in
  let fields := q_fields qinfo in
  arg_defs <- build_args args ;;
  let arg_vals := build_arg_values args in
  let fields_str := build_fields fields 4 in
  Return ("query " +:+ query_name +:+ arg_defs +:+ " {" +:+ nl
          +:+ "    " +:+ query_name +:+ arg_vals +:+ " {" +:+ nl
          +:+ fields_str +:+ nl
          +:+ "    }" +:+ nl
          +:+ "}" +:+ nl).

End Schema2Query.

(** *** GraphQL type syntax, as the specification words it

    A named type is its bare name, a list is bracketed, a non-null type has
    a trailing [!]. *)

Inductive gql_type : Type :=
  | GNamed (n : string)
  | GList (t : gql_type)
  | GNonNull (t : gql_type).

Fixpoint gql_syntax (t : gql_type) : string :=
  match t with
  | GNamed n => n
  | GList t => "[" +:+ gql_syntax t +:+ "]"
  | GNonNull t => gql_syntax t +:+ "!"
  end.

(** The introspection descriptor of a GraphQL type: wrappers have no name,
    a named type has a kind ([named_kind]) and no [ofType]. *)
Fixpoint descriptor (named_kind : string) (t : gql_type) : type_info :=
  match t with
  | GNamed n => TypeInfo (Some named_kind) (Some n) None
  | GList t => TypeInfo (Some "LIST") None (Some (descriptor named_kind t))
  | GNonNull t => TypeInfo (Some "NON_NULL") None (Some (descriptor named_kind t))
  end.

(** Every name of a GraphQL type is a non-empty string. *)
Fixpoint names_nonempty (t : gql_type) : Prop :=
  match t with
  | GNamed n => n <> ""
  | GList t | GNonNull t => names_nonempty t
  end.

(** ** Tool facade: the liftover tool ([server.py]) *)

Module Server.

(** A tool either raises before dispatch or ends in the one call
    [run_query_with_metadata(query_name, variables)]. *)
Inductive tool_step : Type :=
  | Rejected (e : exn)
  | Dispatch (query_name : string) (variables : gmap string pyval).

Definition get_variant_liftover
    (reference_genome source_variant_id liftover_variant_id dataset : pyval)
  : tool_step :=
  if negb (eq_str dataset "gnomad_r2_1") then
    Rejected (ValueError "Only v2 is supported for liftover.")
  else if truthy source_variant_id && truthy liftover_variant_id then
    Rejected (ValueError
      "Only one of source_variant_id or liftover_variant_id must be provided.")
  else
    (* Build check *)
    let build_error :=
      if truthy source_variant_id then
        if negb (eq_str reference_genome "GRCh37") then
          Some (ValueError "Source variant ID must be on GRCh37.")
        else None
      else if truthy liftover_variant_id then
        if negb (eq_str reference_genome "GRCh38") then
          Some (ValueError "Lifted over variant ID must be on GRCh38.")
        else None
      else
        Some (ValueError
          "Either source_variant_id or liftover_variant_id must be provided.") in
    match build_error with
    | Some e => Rejected e
    | None =>
        Dispatch "liftover"
          (<[ "dataset" := dataset ]>
           (<[ "reference_genome" := reference_genome ]>
            (<[ "source_variant_id" := source_variant_id ]>
             (<[ "liftover_variant_id" := liftover_variant_id ]> ∅))))
    end.

(** The tool run against a dispatcher [run]. *)
Definition run_tool {E : Type} (run : string -> gmap string pyval -> outcome E)
    (step : tool_step) : outcome E :=
  match step with
  | Rejected e => Raise e
  | Dispatch query_name variables => run query_name variables
  end.

End Server.

Import Schema2Query.

(** ** Version resolution, as the specification words it

    The priority order of [resolveVersion]: the explicit hint, else the
    dataset table, else the first entry of the reference-genome table that
    matches, else a resolution error. *)

Definition dataset_version (dataset : pyval) : option string :=
  match dataset with
  | PyStr ds => if String.eqb ds "" then None else assoc ds ALL_DATASET_TO_VERSION
  | _ => None
  end.

Inductive resolves (version dataset reference_genome : pyval) : outcome pyval -> Prop :=
  | resolves_by_hint :
      truthy version = true ->
      resolves version dataset reference_genome (Return version)
  | resolves_by_dataset v :
      truthy version = false ->
      dataset_version dataset = Some v ->
      resolves version dataset reference_genome (Return (PyStr v))
  | resolves_by_genome before ver rg after :
      truthy version = false ->
      dataset_version dataset = None ->
      REF_GENOME_MAP = (before ++ (ver, rg) :: after)%list ->
      truthy reference_genome = true ->
      reference_genome = PyStr rg ->
      Forall (fun e => e.2 <> rg) before ->
      resolves version dataset reference_genome (Return (PyStr ver))
  | resolves_fails :
      truthy version = false ->
      dataset_version dataset = None ->
      (truthy reference_genome = false \/
       Forall (fun e => reference_genome <> PyStr e.2) REF_GENOME_MAP) ->
      resolves version dataset reference_genome
        (Raise (ValueError ("Cannot detect version for dataset=" +:+ str dataset
                            +:+ ", reference_genome=" +:+ str reference_genome))).

(** ** Concrete collaborators and inputs used in the examples *)

(** A document store that has every query file. *)
Definition store_all : string -> option string := fun _ => Some "query { meta }".

(** A transport that answers with the variables it was handed. *)
Definition echo_transport (query_str : string) (variables : gmap string pyval)
  : outcome (gmap string pyval) := Return variables.

(** A transport that always fails. *)
Definition failing_transport (query_str : string) (variables : gmap string pyval)
  : outcome (gmap string pyval) := Raise (OtherError "TransportQueryError" "boom").

Definition vars_genome_only : gmap string pyval :=
  {[ "reference_genome" := PyStr "GRCh37" ]}.

Definition vars_contradictory : gmap string pyval :=
  <[ "dataset" := PyStr "gnomad_r4" ]> {[ "reference_genome" := PyStr "GRCh37" ]}.

Definition vars_hint_v2_dataset_r4 : gmap string pyval :=
  <[ "version" := PyStr "v2" ]> {[ "dataset" := PyStr "gnomad_r4" ]}.

Definition vars_bad_hint : gmap string pyval :=
  <[ "version" := PyStr "v5" ]> {[ "reference_genome" := PyStr "GRCh38" ]}.

Definition vars_v2_complete : gmap string pyval :=
  <[ "dataset" := PyStr "gnomad_r2_1" ]>
  (<[ "reference_genome" := PyStr "GRCh37" ]>
   {[ "variantId" := PyStr "12-112241766-G-A" ]}).

(** Schemas for the walker. *)

Definition object_type (n : string) : type_info := TypeInfo (Some "OBJECT") (Some n) None.
Definition scalar_type (n : string) : type_info := TypeInfo (Some "SCALAR") (Some n) None.
Definition non_null (t : type_info) : type_info := TypeInfo (Some "NON_NULL") None (Some t).
Definition list_of (t : type_info) : type_info := TypeInfo (Some "LIST") None (Some t).

Definition plain_field (n : string) (t : type_info) : field :=
  {| field_name := n; field_type := t; field_description := None; field_args := [] |}.

(** [Root] reaches the composite type [C] under two sibling fields. *)
Definition tm_siblings : gmap string type_def :=
  <[ "Root" := {| type_fields := Some [plain_field "a" (object_type "C");
                                       plain_field "b" (object_type "C")] |} ]>
  (<[ "C" := {| type_fields := Some [plain_field "x" (scalar_type "String")] |} ]> ∅).

(** A two-type cycle: [A.b : B!] and [B.a : [A]]. *)
Definition tm_cycle : gmap string type_def :=
  <[ "A" := {| type_fields := Some [plain_field "b" (non_null (object_type "B"))] |} ]>
  (<[ "B" := {| type_fields := Some [plain_field "a" (list_of (object_type "A"))] |} ]> ∅).

Definition leaf (t : string) : field_info := FieldInfo t (PyStr "") [] None.
Definition node (t : string) (sub : field_map) : field_info :=
  FieldInfo t (PyStr "") [] (Some sub).

(** ** Further parts of the sources *)

(** *** The tail of [run_query] *)

Section DispatcherTail.

Variable json : Type.
Variable read_file : string -> option string.
Variable execute_query_sync : string -> gmap string pyval -> outcome json.

(** Lines 186-191 of [run_query]: the query file of the version is read and
    executed with the caller's variables. *)
Definition load_and_execute (version : pyval) (query_name : string)
    (variables : gmap string pyval) : outcome (response json) :=
  let path := query_path version query_name in
  match read_file path with
  | None => Raise (ValueError ("Query file not found: " +:+ path))
  | Some query_str =>
      j <- execute_query_sync query_str variables ;; Return (Result j)
  end.

End DispatcherTail.

(** *** The other tools of [server.py] *)

Module ServerTools.

Import Server.

Definition get_gene_info (gene_id gene_symbol dataset reference_genome : pyval)
  : tool_step :=
  if negb (eq_str dataset "gnomad_r4") then
    Rejected (ValueError "Only v4 is supported for gene info.")
  else if negb (eq_str reference_genome "GRCh38") then
    Rejected (ValueError "Only GRCh38 is supported for gene info.")
  else if negb (truthy gene_id) && negb (truthy gene_symbol) then
    Rejected (ValueError "Either gene_id or gene_symbol must be provided.")
  else
    Dispatch "gene"
      (<[ "dataset" := dataset ]>
       (<[ "reference_genome" := reference_genome ]>
        (<[ "gene_id" := gene_id ]>
         (<[ "gene_symbol" := gene_symbol ]> ∅)))).

Definition search_for_genes (dataset reference_genome query : pyval) : tool_step :=
  Dispatch "gene_search"
    (<[ "dataset" := dataset ]>
     (<[ "reference_genome" := reference_genome ]>
      (<[ "query" := query ]> ∅))).

Definition get_region_info (reference_genome chrom start stop dataset : pyval)
  : tool_step :=
  if negb (eq_str dataset "gnomad_r4") then
    Rejected (ValueError "Only v4 is supported for region info.")
  else if negb (eq_str reference_genome "GRCh38") then
    Rejected (ValueError "Only GRCh38 is supported for region info.")
  else
    Dispatch "region"
      (<[ "dataset" := dataset ]>
       (<[ "reference_genome" := reference_genome ]>
        (<[ "chrom" := chrom ]>
         (<[ "start" := start ]>
          (<[ "stop" := stop ]> ∅))))).

Definition get_variant_info (dataset reference_genome variantId : pyval) : tool_step :=
  Dispatch "variant"
    (<[ "dataset" := dataset ]>
     (<[ "reference_genome" := reference_genome ]>
      (<[ "variantId" := variantId ]> ∅))).

Definition get_clinvar_variant_info (dataset reference_genome variant_id : pyval)
  : tool_step :=
  Dispatch "clinvar_variant"
    (<[ "dataset" := dataset ]>
     (<[ "reference_genome" := reference_genome ]>
      (<[ "variant_id" := variant_id ]> ∅))).

Definition get_mitochondrial_variant_info (reference_genome variant_id dataset : pyval)
  : tool_step :=
  if negb (eq_str dataset "gnomad_r4") then
    Rejected (ValueError "Only v4 is supported for mitochondrial variant info.")
  else if negb (eq_str reference_genome "GRCh38") then
    Rejected (ValueError "Only GRCh38 is supported for mitochondrial variant info.")
  else
    Dispatch "mitochondrial_variant"
      (<[ "dataset" := dataset ]>
       (<[ "reference_genome" := reference_genome ]>
        (<[ "variant_id" := variant_id ]> ∅))).

Definition get_structural_variant_info (dataset reference_genome variantId : pyval)
  : tool_step :=
  Dispatch "structural_variant"
    (<[ "dataset" := dataset ]>
     (<[ "reference_genome" := reference_genome ]>
      (<[ "variantId" := variantId ]> ∅))).

Definition get_copy_number_variant_info (reference_genome variantId dataset : pyval)
  : tool_step :=
  if negb (eq_str dataset "gnomad_cnv_r4") then
    Rejected (ValueError "Only v4 is supported for copy number variant info.")
  else if negb (eq_str reference_genome "GRCh38") then
    Rejected (ValueError "Only GRCh38 is supported for copy number variant info.")
  else
    Dispatch "copy_number_variant"
      (<[ "dataset" := dataset ]>
       (<[ "reference_genome" := reference_genome ]>
        (<[ "variantId" := variantId ]> ∅))).

Definition search_for_variants (dataset reference_genome query : pyval) : tool_step :=
  Dispatch "variant_search"
    (<[ "dataset" := dataset ]>
     (<[ "reference_genome" := reference_genome ]>
      (<[ "query" := query ]> ∅))).

Definition get_str_info (reference_genome id dataset : pyval) : tool_step :=
  if negb (eq_str dataset "gnomad_r4") then
    Rejected (ValueError "Only v4 is supported for STR info.")
  else
    Dispatch "short_tandem_repeat"
      (<[ "dataset" := dataset ]>
       (<[ "reference_genome" := reference_genome ]>
        (<[ "id" := id ]> ∅))).

Definition get_metadata (dataset reference_genome : pyval) : tool_step :=
  Dispatch "meta"
    (<[ "dataset" := dataset ]>
     (<[ "reference_genome" := reference_genome ]> ∅)).

(** A call of one of the twelve tools, with its arguments. *)
Inductive tool_call : Type :=
  | GeneInfo (gene_id gene_symbol dataset reference_genome : pyval)
  | SearchForGenes (dataset reference_genome query : pyval)
  | RegionInfo (reference_genome chrom start stop dataset : pyval)
  | VariantInfo (dataset reference_genome variantId : pyval)
  | ClinvarVariantInfo (dataset reference_genome variant_id : pyval)
  | MitochondrialVariantInfo (reference_genome variant_id dataset : pyval)
  | StructuralVariantInfo (dataset reference_genome variantId : pyval)
  | CopyNumberVariantInfo (reference_genome variantId dataset : pyval)
  | SearchForVariants (dataset reference_genome query : pyval)
  | StrInfo (reference_genome id dataset : pyval)
  | VariantLiftover (reference_genome source_variant_id liftover_variant_id dataset : pyval)
  | Metadata (dataset reference_genome : pyval).

Definition call_tool (c : tool_call) : tool_step :=
  match c with
  | GeneInfo i s d g => get_gene_info i s d g
  | SearchForGenes d g q => search_for_genes d g q
  | RegionInfo g c a b d => get_region_info g c a b d
  | VariantInfo d g v => get_variant_info d g v
  | ClinvarVariantInfo d g v => get_clinvar_variant_info d g v
  | MitochondrialVariantInfo g v d => get_mitochondrial_variant_info g v d
  | StructuralVariantInfo d g v => get_structural_variant_info d g v
  | CopyNumberVariantInfo g v d => get_copy_number_variant_info g v d
  | SearchForVariants d g q => search_for_variants d g q
  | StrInfo g i d => get_str_info g i d
  | VariantLiftover g s l d => get_variant_liftover g s l d
  | Metadata d g => get_metadata d g
  end.

(** The [dataset] and [reference_genome] arguments of a call. *)
Definition dataset_arg (c : tool_call) : pyval :=
  match c with
  | GeneInfo _ _ d _ | SearchForGenes d _ _ | RegionInfo _ _ _ _ d
  | VariantInfo d _ _ | ClinvarVariantInfo d _ _ | MitochondrialVariantInfo _ _ d
  | StructuralVariantInfo d _ _ | CopyNumberVariantInfo _ _ d
  | SearchForVariants d _ _ | StrInfo _ _ d | VariantLiftover _ _ _ d
  | Metadata d _ => d
  end.

Definition genome_arg (c : tool_call) : pyval :=
  match c with
  | GeneInfo _ _ _ g | SearchForGenes _ g _ | RegionInfo g _ _ _ _
  | VariantInfo _ g _ | ClinvarVariantInfo _ g _ | MitochondrialVariantInfo g _ _
  | StructuralVariantInfo _ g _ | CopyNumberVariantInfo g _ _
  | SearchForVariants _ g _ | StrInfo g _ _ | VariantLiftover g _ _ _
  | Metadata _ g => g
  end.

(** The version a restricted tool is documented for ("v2 only", "v4 only"). *)
Definition documented_version (c : tool_call) : string :=
  match c with
  | VariantLiftover _ _ _ _ => "v2"
  | _ => "v4"
  end.

(** The tools that check their dataset before dispatching. *)
Definition restricted (c : tool_call) : bool :=
  match c with
  | GeneInfo _ _ _ _ | RegionInfo _ _ _ _ _ | MitochondrialVariantInfo _ _ _
  | CopyNumberVariantInfo _ _ _ | StrInfo _ _ _ | VariantLiftover _ _ _ _ => true
  | _ => false
  end.

End ServerTools.

(** *** The other methods of [SchemaAnalyzer] *)

Module SchemaAnalyzerMethods.

(** The "fields" entry of a type of the schema document: the key may be
    absent, [null] or a list. *)
Inductive fields_key : Type :=
  | FieldsAbsent
  | FieldsNull
  | Fields (l : list field).

(** A type of [schema["__schema"]["types"]]: its name and "fields" entry. *)
Record schema_type : Type := { st_name : string; st_fields : fields_key }.

(** What the walker reads of a type definition. *)
Definition type_def_of (t : schema_type) : type_def :=
  {| type_fields := match st_fields t with
                    | Fields l => Some l
                    | _ => None
                    end |}.

(** [for type_def in types: types_map[type_def["name"]] = type_def]. *)
Definition _build_types_map (types : list schema_type) : gmap string type_def :=
  fold_left (fun types_map t => <[ st_name t := type_def_of t ]> types_map) types ∅.

(** The search loop of [get_query_fields]: the first type with the name. *)
Fixpoint find_type (name : string) (types : list schema_type) : option schema_type :=
  match types with
  | [] => None
  | t :: rest => if String.eqb (st_name t) name then Some t else find_type name rest
  end.

(** [get_query_fields]; [None] is Python's [None], returned when the
    "fields" entry of the Query type is [null]. *)
Definition get_query_fields (types : list schema_type) : option (list field) :=
  match find_type "Query" types with
  | Some query_type =>
      match st_fields query_type with
      | FieldsAbsent => Some []
      | FieldsNull => None
      | Fields l => Some l
      end
  | None => Some []
  end.

(** [for field in None]. *)
Definition none_not_iterable : exn :=
  OtherError "TypeError" "'NoneType' object is not iterable".

Fixpoint find_field (name : string) (fs : list field) : option field :=
  match fs with
  | [] => None
  | f :: rest => if String.eqb (field_name f) name then Some f else find_field name rest
  end.

Definition get_query_by_name (types : list schema_type) (name : string)
  : outcome (option field) :=
  match get_query_fields types with
  | None => Raise none_not_iterable
  | Some fs => Return (find_field name fs)
  end.

(** [while "ofType" in type_info and type_info["ofType"]:
    type_info = type_info["ofType"]]. *)
Fixpoint innermost (info : type_info) : type_info :=
  match info with
  | TypeInfo _ _ (Some t) => innermost t
  | TypeInfo _ _ None => info
  end.

Definition name_of (type_info : type_info) : option string :=
  match type_info with TypeInfo _ name _ => name end.

Definition get_query_return_type (types : list schema_type) (query_name : string)
  : outcome (option string) :=
  query <- get_query_by_name types query_name ;;
  match query with
  | None => Return None
  | Some query => Return (name_of (innermost (field_type query)))
  end.

(** The field map of a top-level call of the walker, which always returns
    (lemma [get_required_fields_for_type_total]). *)
Definition required_fields (types_map : gmap string type_def) (type_name : option string)
  : field_map :=
  default [] (get_required_fields_for_type types_map type_name).

(** An entry of the query field map. *)
Record query_info : Type := {
  qi_return_type : string;
  qi_description : pyval;
  qi_args : list arg;
  qi_fields : field_map
}.

(** The loop of [generate_query_field_map] over the query fields. *)
Fixpoint query_field_map_loop (types : list schema_type) (fs : list field)
    (query_field_map : list (string * query_info))
  : outcome (list (string * query_info)) :=
  match fs with
  | [] => Return query_field_map
  | query_field :: rest =>
      let query_name := field_name query_field in
      return_type <- get_query_return_type types query_name ;;
      if truthy_str return_type then
        let fields := required_fields (_build_types_map types) return_type in
        query_field_map_loop types rest
          (dict_set query_name
             {| qi_return_type := default "" return_type;
                qi_description := default (PyStr "") (field_description query_field);
                qi_args := field_args query_field;
                qi_fields := fields |}
             query_field_map)
      else query_field_map_loop types rest query_field_map
  end.

Definition generate_query_field_map (types : list schema_type)
  : outcome (list (string * query_info)) :=
  match get_query_fields types with
  | None => Raise none_not_iterable
  | Some fs => query_field_map_loop types fs []
  end.

(** What [generate_query] of [schema2query.py] reads of an entry. *)
Definition qinfo_of (i : query_info) : qinfo :=
  {| q_args := qi_args i; q_fields := qi_fields i |}.

(** The entry of a query field whose return type has a name. *)
Definition query_entry (types : list schema_type) (f : field)
  : option (string * query_info) :=
  let return_type := name_of (innermost (field_type f)) in
  if truthy_str return_type then
    Some (field_name f,
          {| qi_return_type := default "" return_type;
             qi_description := default (PyStr "") (field_description f);
             qi_args := field_args f;
             qi_fields := required_fields (_build_types_map types) return_type |})
  else None.

(** Every wrapper on the [ofType] chain has no (or an empty) name. *)
Fixpoint wrappers_unnamed (t : type_info) : Prop :=
  match t with
  | TypeInfo _ name (Some u) => truthy_str name = false /\ wrappers_unnamed u
  | TypeInfo _ _ None => True
  end.

End SchemaAnalyzerMethods.

(** *** Shapes of field maps and descriptors *)

(** No entry, at any depth, has a "subfields" key with an empty map. *)
Fixpoint subfields_nonempty (i : field_info) : Prop :=
  match i with
  | FieldInfo _ _ _ None => True
  | FieldInfo _ _ _ (Some l) =>
      l <> [] /\
      (fix all (l : field_map) : Prop :=
         match l with
         | [] => True
         | (_, x) :: r => subfields_nonempty x /\ all r
         end) l
  end.

Fixpoint all_subfields_nonempty (m : field_map) : Prop :=
  match m with
  | [] => True
  | (_, x) :: r => subfields_nonempty x /\ all_subfields_nonempty r
  end.

(** Every NON_NULL or LIST wrapper of the descriptor carries its [ofType]. *)
Fixpoint wrappers_closed (t : type_info) : bool :=
  match t with
  | TypeInfo kind _ ofType =>
      if opt_str_is kind "NON_NULL" || opt_str_is kind "LIST" then
        match ofType with
        | Some u => wrappers_closed u
        | None => false
        end
      else true
  end.

(** The wrappers are closed and the type under them has a name or a kind
    to print. *)
Fixpoint renders_text (t : type_info) : bool :=
  match t with
  | TypeInfo kind name ofType =>
      if opt_str_is kind "NON_NULL" || opt_str_is kind "LIST" then
        match ofType with
        | Some u => renders_text u
        | None => false
        end
      else truthy_str name || truthy_str kind
  end.

(** A type name free of the characters of the wrapper syntax. *)
Fixpoint plain_name (n : string) : bool :=
  match n with
  | EmptyString => true
  | String c r =>
      negb (Ascii.eqb c "["%char) && negb (Ascii.eqb c "]"%char)
      && negb (Ascii.eqb c "!"%char) && plain_name r
  end.

Fixpoint plain_names (t : gql_type) : Prop :=
  match t with
  | GNamed n => n <> "" /\ plain_name n = true
  | GList t | GNonNull t => plain_names t
  end.

(** The entry [e] is the one the walker records for the field [f]: its
    name, rendered type, description and arguments, and no subfields when
    the inner type is a scalar. *)
Definition reflects (f : field) (e : string * field_info) : Prop :=
  exists sub,
    e = entry_of f sub
    /\ (is_scalar (_extract_inner_type (field_type f)) = true -> sub = None).

(** The nesting depth of a field map: how many levels of subfields lie
    below its entries. *)
Fixpoint depth_info (i : field_info) : nat :=
  match i with
  | FieldInfo _ _ _ None => 0
  | FieldInfo _ _ _ (Some l) =>
      S ((fix deepest (l : field_map) : nat :=
            match l with
            | [] => 0
            | (_, x) :: r => Nat.max (depth_info x) (deepest r)
            end) l)
  end.

Fixpoint depth (m : field_map) : nat :=
  match m with
  | [] => 0
  | (_, x) :: r => Nat.max (depth_info x) (depth r)
  end.

(** The last character of a text. *)
Fixpoint last_char (s : string) : option ascii :=
  match s with
  | EmptyString => None
  | String c EmptyString => Some c
  | String _ r => last_char r
  end.

(** A small schema document: two queries with named return types, one
    whose descriptor has no name at all, and the types they return. *)
Definition example_query_fields : list field :=
  [ {| field_name := "variant";
       field_type := object_type "Variant";
       field_description := Some (PyStr "A variant");
       field_args := [ {| arg_name := "variantId";
                          arg_type := non_null (scalar_type "String") |} ] |};
    {| field_name := "nameless";
       field_type := TypeInfo None None None;
       field_description := None;
       field_args := [] |};
    {| field_name := "genes";
       field_type := non_null (list_of (non_null (object_type "Gene")));
       field_description := None;
       field_args := [] |} ].

Definition example_schema : list SchemaAnalyzerMethods.schema_type :=
  [ {| SchemaAnalyzerMethods.st_name := "Query";
       SchemaAnalyzerMethods.st_fields :=
         SchemaAnalyzerMethods.Fields example_query_fields |};
    {| SchemaAnalyzerMethods.st_name := "Variant";
       SchemaAnalyzerMethods.st_fields :=
         SchemaAnalyzerMethods.Fields
           [plain_field "variant_id" (non_null (scalar_type "String"));
            plain_field "gene" (object_type "Gene")] |};
    {| SchemaAnalyzerMethods.st_name := "Gene";
       SchemaAnalyzerMethods.st_fields :=
         SchemaAnalyzerMethods.Fields
           [plain_field "symbol" (scalar_type "String");
            plain_field "variants" (list_of (object_type "Variant"))] |};
    {| SchemaAnalyzerMethods.st_name := "DatasetId";
       SchemaAnalyzerMethods.st_fields := SchemaAnalyzerMethods.FieldsNull |} ].

(** Further inputs for the examples. *)

(** A document store that holds the v2 "variant" document only. *)
Definition read_file_v2_variant (path : string) : option string :=
  if String.eqb path "gnomad/queries/v2/variant.graphql"
  then Some "query variant { v2 }" else None.

Definition vars_hint_v4_genome_37 : gmap string pyval :=
  <[ "version" := PyStr "v4" ]> {[ "reference_genome" := PyStr "GRCh37" ]}.

Definition vars_bad_hint_complete : gmap string pyval :=
  <[ "version" := PyStr "v5" ]>
  (<[ "dataset" := PyStr "gnomad_r4" ]> {[ "reference_genome" := PyStr "GRCh38" ]}).

Definition vars_bad_hint_dataset : gmap string pyval :=
  <[ "version" := PyStr "v5" ]> {[ "dataset" := PyStr "gnomad_r4" ]}.

Definition vars_unknown_dataset : gmap string pyval :=
  {[ "dataset" := PyStr "unknown_ds" ]}.

(** * Properties *)

(** ** Version resolution *)

Lemma eq_str_true v s : eq_str v s = true <-> v = PyStr s.
Proof.
  destruct v; simpl; try (split; [discriminate | intros [=]]).
  rewrite String.eqb_eq. split; [intros -> | intros [=]]; done.
Qed.

Lemma eq_str_false v s : eq_str v s = false <-> v <> PyStr s.
Proof.
  rewrite <- eq_str_true. destruct (eq_str v s); split; try done.
Qed.

Lemma dataset_version_spec dataset :
  dataset_version dataset =
  if truthy dataset && dict_mem dataset ALL_DATASET_TO_VERSION
  then match dataset with PyStr ds => assoc ds ALL_DATASET_TO_VERSION | _ => None end
  else None.
Proof.
  destruct dataset as [|ds|n]; try done.
  - unfold dataset_version, truthy, dict_mem.
    destruct (String.eqb ds ""); [done|]. cbn [negb andb].
    destruct (assoc ds ALL_DATASET_TO_VERSION) eqn:E.
    + rewrite bool_decide_eq_true_2; [done | by eexists].
    + rewrite bool_decide_eq_false_2; [done | by intros [? [=]]].
  - unfold dict_mem. by rewrite andb_false_r.
Qed.

(** [detect_version] when the dataset is in the table. *)
Lemma detect_version_dataset dataset rg v :
  dataset_version dataset = Some v -> detect_version dataset rg = Return v.
Proof.
  rewrite dataset_version_spec. unfold detect_version.
  destruct (truthy dataset && dict_mem dataset ALL_DATASET_TO_VERSION); [|done].
  destruct dataset as [|ds|n]; try done. unfold dict_getitem. by intros ->.
Qed.

(** [detect_version] when it is not: only the genome decides. *)
Lemma detect_version_genome dataset rg :
  dataset_version dataset = None ->
  detect_version dataset rg =
  match match_ref_genome REF_GENOME_MAP rg with
  | Some ver => Return ver
  | None => Raise (ValueError ("Cannot detect version for dataset=" +:+ str dataset
                               +:+ ", reference_genome=" +:+ str rg))
  end.
Proof.
  rewrite dataset_version_spec. unfold detect_version.
  destruct dataset as [|ds|n]; try done.
  - destruct (truthy (PyStr ds) && dict_mem (PyStr ds) ALL_DATASET_TO_VERSION) eqn:E;
      [|done].
    unfold dict_mem in E.
    apply andb_true_iff in E as [_ E]. apply bool_decide_eq_true in E as [v E].
    rewrite E. discriminate.
  - unfold dict_mem. by rewrite andb_false_r.
Qed.

Lemma match_ref_genome_cases rg :
  match_ref_genome REF_GENOME_MAP rg =
  if eq_str rg "GRCh37" then Some "v2"
  else if eq_str rg "GRCh38" then Some "v3" else None.
Proof.
  destruct rg as [|g|n]; simpl; try done.
  - destruct (String.eqb g "") eqn:E; simpl.
    + apply String.eqb_eq in E as ->. reflexivity.
    + destruct (String.eqb g "GRCh37"); [done|]. by destruct (String.eqb g "GRCh38").
  - by destruct (negb (n =? 0)%Z).
Qed.

(** C6: version resolution follows the priority order explicit hint, then
    dataset table, then the first matching entry of the reference-genome
    table, and fails with a resolution error otherwise.  In particular
    dataset "gnomad_sv_r4" gives "v4", "GRCh37" alone gives "v2", "GRCh38"
    alone gives "v3" and a genome alone never gives "v4", and dataset
    "unknown_ds" with no reference genome is a resolution error, which
    [run_query] reports as its error value. *)
Theorem version_resolution_priority :
  (forall variables : gmap string pyval,
      resolves (dict_get variables "version") (dict_get variables "dataset")
               (dict_get variables "reference_genome")
               (resolve_version variables))
  /\ detect_version (PyStr "gnomad_sv_r4") PyNone = Return "v4"
  /\ detect_version PyNone (PyStr "GRCh37") = Return "v2"
  /\ detect_version PyNone (PyStr "GRCh38") = Return "v3"
  /\ (forall rg, detect_version PyNone rg <> Return "v4")
  /\ detect_version (PyStr "unknown_ds") PyNone
     = Raise (ValueError
         "Cannot detect version for dataset=unknown_ds, reference_genome=None")
  /\ (forall q,
        run_query _ store_all echo_transport q {[ "dataset" := PyStr "unknown_ds" ]}
        = Return (ErrorDict
            "Cannot determine version from dataset/reference_genome/version.")).
Proof.
  split; [|split; [|split; [|split; [|split; [|split]]]]]; try reflexivity.
  - intros variables. unfold resolve_version.
    set (version := dict_get variables "version").
    set (dataset := dict_get variables "dataset").
    set (rg := dict_get variables "reference_genome").
    destruct (truthy version) eqn:Hv; simpl; [by constructor|].
    destruct (dataset_version dataset) as [v|] eqn:Hd.
    + rewrite (detect_version_dataset _ _ _ Hd). simpl. by constructor.
    + rewrite (detect_version_genome _ _ Hd), match_ref_genome_cases.
      destruct (eq_str rg "GRCh37") eqn:E37.
      { apply eq_str_true in E37. simpl.
        apply (resolves_by_genome _ _ _ [] "v2" "GRCh37"
                 [("v3", "GRCh38"); ("v4", "GRCh38")]); try done.
        by rewrite E37. }
      destruct (eq_str rg "GRCh38") eqn:E38.
      { apply eq_str_true in E38. simpl.
        apply (resolves_by_genome _ _ _ [("v2", "GRCh37")] "v3" "GRCh38"
                 [("v4", "GRCh38")]); try done.
        - by rewrite E38.
        - by repeat constructor. }
      simpl. apply resolves_fails; try done. right.
      apply eq_str_false in E37, E38. by repeat constructor.
  - intros rg. rewrite detect_version_genome, match_ref_genome_cases by done.
    destruct (eq_str rg "GRCh37"); [discriminate|].
    destruct (eq_str rg "GRCh38"); discriminate.
Qed.

(** ** The dispatcher *)

Section DispatcherFacts.

Context {json : Type}.
Variable read_file : string -> option string.
Variable execute_query_sync : string -> gmap string pyval -> outcome json.

Local Abbreviation run := (run_query json read_file execute_query_sync).
Local Abbreviation recheck := (check_and_execute json read_file execute_query_sync).

(** A version has a query list exactly when it is "v2", "v3" or "v4". *)
Lemma version_queries_valid version supported :
  version_queries version = Return supported ->
  version = PyStr "v2" \/ version = PyStr "v3" \/ version = PyStr "v4".
Proof.
  unfold version_queries.
  destruct (eq_str version "v2") eqn:E2; [apply eq_str_true in E2; auto|].
  destruct (eq_str version "v3") eqn:E3; [apply eq_str_true in E3; auto|].
  destruct (eq_str version "v4") eqn:E4; [apply eq_str_true in E4; auto|].
  discriminate.
Qed.

(** For a valid version the two defaults exist, so completion returns. *)
Lemma completion_returns variables version supported :
  version_queries version = Return supported ->
  exists dataset reference_genome,
    complete_dataset variables version = Return dataset
    /\ complete_reference_genome variables version = Return reference_genome.
Proof.
  intros Hq. unfold complete_dataset, complete_reference_genome.
  destruct (truthy (dict_get variables "dataset")),
           (truthy (dict_get variables "reference_genome"));
    destruct (version_queries_valid _ _ Hq) as [-> | [-> | ->]];
    simpl; eauto.
Qed.

(** [run_query] once version, dataset and genome are settled. *)
Lemma run_query_settled q variables version dataset reference_genome :
  resolve_version variables = Return version ->
  complete_dataset variables version = Return dataset ->
  complete_reference_genome variables version = Return reference_genome ->
  run q variables =
  validate_and_execute json read_file execute_query_sync
    q variables version dataset reference_genome.
Proof.
  intros Hv Hd Hg. unfold run_query, try_value_error. by rewrite Hv, Hd, Hg.
Qed.

(** C5: when the resolved version is one of the three and the query name
    is not in that version's list, [run_query] raises a [ValueError] whose
    message names the query, the version and the whole supported list; when
    the name is in the list the check passes and the call goes on to the
    consistency check. *)
Theorem unsupported_query_hard_failure q variables version supported :
  resolve_version variables = Return version ->
  version_queries version = Return supported ->
  (in_list q supported = false ->
   run q variables
   = Raise (ValueError
       ("Query '" +:+ q +:+ "' is not supported in gnomAD " +:+ str version
        +:+ " (supported: " +:+ repr_list supported +:+ ")")))
  /\ (in_list q supported = true ->
      exists dataset reference_genome,
        complete_dataset variables version = Return dataset
        /\ complete_reference_genome variables version = Return reference_genome
        /\ run q variables = recheck q variables version dataset reference_genome).
Proof.
  intros Hv Hq.
  destruct (completion_returns variables _ _ Hq) as (dataset & rg & Hd & Hg).
  rewrite (run_query_settled q _ _ _ _ Hv Hd Hg).
  unfold validate_and_execute. rewrite Hq. simpl.
  split; intros Hin; rewrite Hin; simpl; [done|].
  exists dataset, rg. auto.
Qed.

(** C10: an explicit (truthy) version hint other than "v2", "v3", "v4",
    with no dataset supplied, makes [run_query] raise the [KeyError] of the
    lookup [DATASET_MAP[version]]: the handler for [ValueError] does not
    catch it, and neither the error value nor the "Unknown gnomAD version"
    failure is produced. *)
Theorem invalid_version_hint_key_error q variables :
  truthy (dict_get variables "version") = true ->
  dict_get variables "version" <> PyStr "v2" ->
  dict_get variables "version" <> PyStr "v3" ->
  dict_get variables "version" <> PyStr "v4" ->
  truthy (dict_get variables "dataset") = false ->
  run q variables = Raise (KeyError (dict_get variables "version")).
Proof.
  intros Ht H2 H3 H4 Hd.
  unfold run_query, resolve_version, complete_dataset.
  rewrite Ht, Hd. simpl.
  destruct (dict_get variables "version") as [|v|n]; try done.
  unfold dict_getitem, DATASET_MAP, assoc.
  destruct (String.eqb_spec v "v2") as [->|_]; [done|].
  destruct (String.eqb_spec v "v3") as [->|_]; [done|].
  destruct (String.eqb_spec v "v4") as [->|_]; [done|].
  reflexivity.
Qed.

(** C4: [run_query_with_metadata] never raises.  For every query name and
    variables it returns the envelope with the endpoint, the query name,
    the caller's variables unchanged, and as response what [run_query]
    returned, or [{"error": str(e)}] when [run_query] raised [e]; so a
    batch of calls made one after the other yields one envelope per call. *)
Theorem run_query_with_metadata_never_raises :
  (forall q variables,
      exists response,
        run_query_with_metadata json read_file execute_query_sync q variables
        = Return {| endpoint := GNOMAD_API_URL;
                    request_query := q;
                    request_variables := variables;
                    response_of := response |}
        /\ match run q variables with
           | Return r => response = r
           | Raise e => response = ErrorDict (str_exn e)
           end)
  /\ (forall calls,
        exists results,
          run_batch json read_file execute_query_sync calls = Return results
          /\ length results = length calls).
Proof.
  assert (forall q variables,
      exists response,
        run_query_with_metadata json read_file execute_query_sync q variables
        = Return {| endpoint := GNOMAD_API_URL;
                    request_query := q;
                    request_variables := variables;
                    response_of := response |}
        /\ match run q variables with
           | Return r => response = r
           | Raise e => response = ErrorDict (str_exn e)
           end) as Hone.
  { intros q variables. unfold run_query_with_metadata.
    destruct (run q variables) as [r|e]; simpl; eauto. }
  split; [exact Hone|].
  induction calls as [|[qname params] calls (results & Hrest & Hlen)]; simpl.
  - by exists [].
  - destruct (Hone qname params) as (response & -> & _). simpl.
    rewrite Hrest. simpl. eexists. split; [reflexivity|]. simpl. by rewrite Hlen.
Qed.

(** Without an explicit hint, resolving again from the completed pair gives
    the version resolved first: the dataset decides both times. *)
Lemma recheck_without_hint variables v dataset reference_genome :
  truthy (dict_get variables "version") = false ->
  resolve_version variables = Return (PyStr v) ->
  complete_dataset variables (PyStr v) = Return dataset ->
  complete_reference_genome variables (PyStr v) = Return reference_genome ->
  detect_version dataset reference_genome = Return v.
Proof.
  unfold resolve_version, complete_dataset, complete_reference_genome.
  intros -> . simpl.
  set (ds := dict_get variables "dataset").
  set (rg := dict_get variables "reference_genome").
  destruct (dataset_version ds) as [w|] eqn:Hds.
  - (* the supplied dataset is in the table *)
    rewrite (detect_version_dataset _ rg _ Hds). simpl. intros [= ->].
    assert (truthy ds = true) as ->.
    { destruct ds as [|s|n]; try done. unfold dataset_version in Hds. simpl.
      by destruct (String.eqb s ""). }
    simpl. intros [= <-] _. by apply detect_version_dataset.
  - (* the genome decided *)
    rewrite (detect_version_genome _ _ Hds), match_ref_genome_cases.
    destruct (eq_str rg "GRCh37") eqn:E37; simpl.
    { intros [= <-]. apply eq_str_true in E37. rewrite E37. simpl.
      destruct (truthy ds) eqn:Hts; simpl; intros [= <-] [= <-].
      - by rewrite (detect_version_genome _ _ Hds).
      - reflexivity. }
    destruct (eq_str rg "GRCh38") eqn:E38; simpl; [|discriminate].
    intros [= <-]. apply eq_str_true in E38. rewrite E38. simpl.
    destruct (truthy ds) eqn:Hts; simpl; intros [= <-] [= <-].
    + by rewrite (detect_version_genome _ _ Hds).
    + reflexivity.
Qed.

(** C2 (amended): when the version resolved again from the completed
    (dataset, reference_genome) pair differs from the version resolved
    first, and the query name is supported, [run_query] raises the
    "Inconsistent version" [ValueError].  Without an explicit version hint
    the two resolutions always agree, so the check cannot fire. *)
Theorem consistency_recheck q variables version supported dataset reference_genome expected :
  resolve_version variables = Return version ->
  version_queries version = Return supported ->
  in_list q supported = true ->
  complete_dataset variables version = Return dataset ->
  complete_reference_genome variables version = Return reference_genome ->
  detect_version dataset reference_genome = Return expected ->
  (version <> PyStr expected ->
   run q variables
   = Raise (ValueError ("Inconsistent version: got " +:+ str version
                        +:+ ", expected " +:+ expected)))
  /\ (truthy (dict_get variables "version") = false -> version = PyStr expected).
Proof.
  intros Hv Hq Hin Hd Hg He. split.
  - intros Hne. rewrite (run_query_settled q _ _ _ _ Hv Hd Hg).
    unfold validate_and_execute, check_and_execute. rewrite Hq. simpl.
    rewrite Hin, He. simpl.
    apply eq_str_false in Hne. by rewrite Hne.
  - intros Hnohint.
    destruct (version_queries_valid _ _ Hq) as [-> | [-> | ->]];
      pose proof (recheck_without_hint _ _ _ _ Hnohint Hv Hd Hg) as Hre;
      rewrite Hre in He; by injection He as <-.
Qed.

End DispatcherFacts.

(** The transport is handed the caller's [variables] dict itself. *)
Lemma run_query_transport_variables read_file q variables received :
  run_query _ read_file echo_transport q variables = Return (Result received) ->
  received = variables.
Proof.
  unfold run_query, try_value_error, validate_and_execute, check_and_execute,
    echo_transport, bind.
  intros H. repeat case_match; congruence.
Qed.

(** C1 (evaluation at the failing input): with only a reference genome
    supplied, version "v2" is resolved and the default dataset
    "gnomad_r2_1" is computed, but the transport receives the caller's
    variables unchanged: they have no "dataset" entry. *)
Theorem backfill_not_passed_to_transport :
  resolve_version vars_genome_only = Return (PyStr "v2")
  /\ complete_dataset vars_genome_only (PyStr "v2") = Return (PyStr "gnomad_r2_1")
  /\ run_query _ store_all echo_transport "meta" vars_genome_only
     = Return (Result vars_genome_only)
  /\ vars_genome_only !! "dataset" = None.
Proof. repeat split; vm_compute; reflexivity. Qed.

(** C2 (counterexample): dataset "gnomad_r4" implies "v4" and reference
    genome "GRCh37" implies "v2", yet [run_query] raises nothing and the
    query is executed. *)
Lemma contradictory_hints_not_detected :
  detect_version (PyStr "gnomad_r4") PyNone = Return "v4"
  /\ detect_version PyNone (PyStr "GRCh37") = Return "v2"
  /\ run_query _ store_all echo_transport "meta" vars_contradictory
     = Return (Result vars_contradictory)
  /\ ~ raises (run_query _ store_all echo_transport "meta" vars_contradictory).
Proof.
  assert (run_query _ store_all echo_transport "meta" vars_contradictory
          = Return (Result vars_contradictory)) as Hrun
    by (vm_compute; reflexivity).
  repeat split; try (vm_compute; reflexivity).
  intros [e He]. rewrite Hrun in He. discriminate He.
Qed.

Lemma consistency_recheck_witness :
  resolve_version vars_hint_v2_dataset_r4 = Return (PyStr "v2")
  /\ detect_version (PyStr "gnomad_r4") (PyStr "GRCh37") = Return "v4"
  /\ run_query _ store_all echo_transport "meta" vars_hint_v2_dataset_r4
     = Raise (ValueError "Inconsistent version: got v2, expected v4").
Proof.
  split; [vm_compute; reflexivity|]. split; [vm_compute; reflexivity|].
  apply (proj1 (consistency_recheck store_all echo_transport "meta"
                  vars_hint_v2_dataset_r4 (PyStr "v2") V2.SUPPORTED_QUERIES
                  (PyStr "gnomad_r4") (PyStr "GRCh37") "v4"
                  ltac:(vm_compute; reflexivity) ltac:(vm_compute; reflexivity)
                  ltac:(vm_compute; reflexivity) ltac:(vm_compute; reflexivity)
                  ltac:(vm_compute; reflexivity) ltac:(vm_compute; reflexivity))).
  apply eq_str_false. reflexivity.
Defined.

Lemma unsupported_query_hard_failure_witness :
  resolve_version vars_v2_complete = Return (PyStr "v2")
  /\ in_list "region" V2.SUPPORTED_QUERIES = false
  /\ run_query _ store_all echo_transport "region" vars_v2_complete
     = Raise (ValueError
         "Query 'region' is not supported in gnomAD v2 (supported: ['variant', 'clinvar_variant', 'structural_variant', 'gene_search', 'variant_search', 'liftover', 'meta'])").
Proof.
  split; [vm_compute; reflexivity|]. split; [reflexivity|].
  apply (proj1 (unsupported_query_hard_failure store_all echo_transport "region"
                  vars_v2_complete (PyStr "v2") V2.SUPPORTED_QUERIES
                  ltac:(vm_compute; reflexivity) ltac:(vm_compute; reflexivity))).
  reflexivity.
Defined.

Lemma invalid_version_hint_key_error_witness :
  dict_get vars_bad_hint "version" = PyStr "v5"
  /\ vars_bad_hint !! "dataset" = None
  /\ run_query _ store_all echo_transport "meta" vars_bad_hint
     = Raise (KeyError (PyStr "v5")).
Proof.
  split; [vm_compute; reflexivity|]. split; [vm_compute; reflexivity|].
  apply (invalid_version_hint_key_error store_all echo_transport "meta" vars_bad_hint);
    vm_compute; congruence.
Defined.

(** The envelope of a call whose dispatch raised, and of one whose
    transport failed: both are returned, with the variables echoed. *)
Example envelope_of_key_error :
  run_query_with_metadata _ store_all echo_transport "meta" vars_bad_hint
  = Return {| endpoint := GNOMAD_API_URL; request_query := "meta";
              request_variables := vars_bad_hint;
              response_of := ErrorDict "'v5'" |}.
Proof. vm_compute. reflexivity. Qed.

Example envelope_of_transport_error :
  run_query_with_metadata _ store_all failing_transport "variant" vars_v2_complete
  = Return {| endpoint := GNOMAD_API_URL; request_query := "variant";
              request_variables := vars_v2_complete;
              response_of := ErrorDict "boom" |}.
Proof. vm_compute. reflexivity. Qed.

(** ** The liftover tool *)

Import Server.

(** The decision tree of [get_variant_liftover]. *)
Lemma liftover_cases reference_genome source_variant_id liftover_variant_id dataset :
  get_variant_liftover reference_genome source_variant_id liftover_variant_id dataset
  = if negb (eq_str dataset "gnomad_r2_1") then
      Rejected (ValueError "Only v2 is supported for liftover.")
    else
      match truthy source_variant_id, truthy liftover_variant_id with
      | true, true =>
          Rejected (ValueError
            "Only one of source_variant_id or liftover_variant_id must be provided.")
      | true, false =>
          if eq_str reference_genome "GRCh37" then
            Dispatch "liftover"
              (<[ "dataset" := dataset ]>
               (<[ "reference_genome" := reference_genome ]>
                (<[ "source_variant_id" := source_variant_id ]>
                 (<[ "liftover_variant_id" := liftover_variant_id ]> ∅))))
          else Rejected (ValueError "Source variant ID must be on GRCh37.")
      | false, true =>
          if eq_str reference_genome "GRCh38" then
            Dispatch "liftover"
              (<[ "dataset" := dataset ]>
               (<[ "reference_genome" := reference_genome ]>
                (<[ "source_variant_id" := source_variant_id ]>
                 (<[ "liftover_variant_id" := liftover_variant_id ]> ∅))))
          else Rejected (ValueError "Lifted over variant ID must be on GRCh38.")
      | false, false =>
          Rejected (ValueError
            "Either source_variant_id or liftover_variant_id must be provided.")
      end.
Proof.
  unfold get_variant_liftover.
  destruct (eq_str dataset "gnomad_r2_1"), (truthy source_variant_id),
    (truthy liftover_variant_id), (eq_str reference_genome "GRCh37"),
    (eq_str reference_genome "GRCh38"); reflexivity.
Qed.

(** C9: the liftover tool rejects, with a [ValueError] and before the
    dispatcher is called, every call with both identifiers, with neither,
    with a source identifier and a genome other than "GRCh37", or with a
    lifted-over identifier and a genome other than "GRCh38"; it reaches
    the dispatcher only with exactly one identifier and its matching
    build (and then with query "liftover"). *)
Theorem liftover_validation reference_genome source_variant_id liftover_variant_id dataset :
  let step := get_variant_liftover reference_genome source_variant_id
                liftover_variant_id dataset in
  (truthy source_variant_id = true -> truthy liftover_variant_id = true ->
   exists msg, step = Rejected (ValueError msg))
  /\ (truthy source_variant_id = false -> truthy liftover_variant_id = false ->
      exists msg, step = Rejected (ValueError msg))
  /\ (truthy source_variant_id = true -> reference_genome <> PyStr "GRCh37" ->
      exists msg, step = Rejected (ValueError msg))
  /\ (truthy liftover_variant_id = true -> reference_genome <> PyStr "GRCh38" ->
      exists msg, step = Rejected (ValueError msg))
  /\ (forall query_name variables, step = Dispatch query_name variables ->
      query_name = "liftover"
      /\ dataset = PyStr "gnomad_r2_1"
      /\ variables = <[ "dataset" := dataset ]>
                     (<[ "reference_genome" := reference_genome ]>
                      (<[ "source_variant_id" := source_variant_id ]>
                       (<[ "liftover_variant_id" := liftover_variant_id ]> ∅)))
      /\ ((truthy source_variant_id = true /\ truthy liftover_variant_id = false
           /\ reference_genome = PyStr "GRCh37")
          \/ (truthy source_variant_id = false /\ truthy liftover_variant_id = true
              /\ reference_genome = PyStr "GRCh38")))
  /\ (dataset = PyStr "gnomad_r2_1" ->
      (truthy source_variant_id = true -> truthy liftover_variant_id = true ->
       step = Rejected (ValueError
         "Only one of source_variant_id or liftover_variant_id must be provided."))
      /\ (truthy source_variant_id = false -> truthy liftover_variant_id = false ->
          step = Rejected (ValueError
            "Either source_variant_id or liftover_variant_id must be provided."))
      /\ (truthy source_variant_id = true -> truthy liftover_variant_id = false ->
          reference_genome <> PyStr "GRCh37" ->
          step = Rejected (ValueError "Source variant ID must be on GRCh37."))
      /\ (truthy source_variant_id = false -> truthy liftover_variant_id = true ->
          reference_genome <> PyStr "GRCh38" ->
          step = Rejected (ValueError "Lifted over variant ID must be on GRCh38."))
      /\ (xorb (truthy source_variant_id) (truthy liftover_variant_id) = true ->
          reference_genome
          = PyStr (if truthy source_variant_id then "GRCh37" else "GRCh38") ->
          exists variables, step = Dispatch "liftover" variables)).
Proof.
  intros step. subst step. rewrite liftover_cases.
  split; [|split; [|split; [|split; [|split]]]].
  - intros -> ->. destruct (negb _); eauto.
  - intros -> ->. destruct (negb _); eauto.
  - intros -> Hne%eq_str_false. rewrite Hne.
    destruct (negb _), (truthy liftover_variant_id); eauto.
  - intros -> Hne%eq_str_false. rewrite Hne.
    destruct (negb _), (truthy source_variant_id); eauto.
  - intros query_name variables.
    destruct (eq_str dataset "gnomad_r2_1") eqn:Hd; cbn [negb]; [|discriminate].
    apply eq_str_true in Hd.
    destruct (truthy source_variant_id), (truthy liftover_variant_id);
      try discriminate.
    + destruct (eq_str reference_genome "GRCh37") eqn:Hg; [|discriminate].
      apply eq_str_true in Hg. intros [= <- <-]. auto 10.
    + destruct (eq_str reference_genome "GRCh38") eqn:Hg; [|discriminate].
      apply eq_str_true in Hg. intros [= <- <-]. auto 10.
  - intros ->. cbn [eq_str negb]. rewrite String.eqb_refl. cbn [negb].
    split; [|split; [|split; [|split]]].
    + by intros -> ->.
    + by intros -> ->.
    + intros -> -> Hne%eq_str_false. by rewrite Hne.
    + intros -> -> Hne%eq_str_false. by rewrite Hne.
    + destruct (truthy source_variant_id), (truthy liftover_variant_id);
        try discriminate; intros _ ->; cbn [eq_str]; rewrite String.eqb_refl; eauto.
Qed.

Lemma liftover_validation_witness :
  get_variant_liftover (PyStr "GRCh38") (PyStr "12-112241766-G-A") PyNone
    (PyStr "gnomad_r2_1")
  = Rejected (ValueError "Source variant ID must be on GRCh37.")
  /\ get_variant_liftover (PyStr "GRCh37") (PyStr "12-112241766-G-A")
       (PyStr "12-111803962-G-A") (PyStr "gnomad_r2_1")
     = Rejected (ValueError
         "Only one of source_variant_id or liftover_variant_id must be provided.").
Proof.
  split.
  - apply (liftover_validation (PyStr "GRCh38") (PyStr "12-112241766-G-A") PyNone
             (PyStr "gnomad_r2_1")); [reflexivity..| ].
    apply eq_str_false. reflexivity.
  - apply (liftover_validation (PyStr "GRCh37") (PyStr "12-112241766-G-A")
             (PyStr "12-111803962-G-A") (PyStr "gnomad_r2_1")); reflexivity.
Defined.

(** A rejected call raises whatever the dispatcher would do: it is not
    called. *)
Lemma rejected_before_dispatch {E} (run : string -> gmap string pyval -> outcome E) e :
  run_tool run (Rejected e) = Raise e.
Proof. reflexivity. Qed.

(** ** The query synthesizer *)

Lemma append_assoc (a b c : string) : (a +:+ b) +:+ c = a +:+ (b +:+ c).
Proof.
  induction a as [|x a IH]; [reflexivity|].
  change (String x ((a +:+ b) +:+ c) = String x (a +:+ b +:+ c)). by f_equal.
Qed.

Lemma truthy_str_Some n : n <> "" -> truthy_str (Some n) = true.
Proof. intros H. simpl. by destruct (String.eqb_spec n ""). Qed.

(** The rendering of a descriptor is the GraphQL syntax of its type. *)
Lemma type_to_gql_descriptor named_kind t :
  named_kind <> "NON_NULL" -> named_kind <> "LIST" -> names_nonempty t ->
  type_to_gql (descriptor named_kind t) = Return (gql_syntax t).
Proof.
  intros Hnn Hl. induction t as [n | t IH | t IH]; intros Hne.
  - cbn [descriptor type_to_gql opt_str_is].
    destruct (String.eqb_spec named_kind "NON_NULL"); [done|].
    destruct (String.eqb_spec named_kind "LIST"); [done|].
    by rewrite truthy_str_Some.
  - cbn [descriptor type_to_gql opt_str_is]. rewrite (IH Hne). reflexivity.
  - cbn [descriptor type_to_gql opt_str_is]. rewrite (IH Hne). reflexivity.
Qed.

(** C8: [generate_query] is a function of its inputs (equal inputs give
    equal text), and [type_to_gql] renders GraphQL type syntax: NON_NULL
    appends "!", LIST brackets, a named type is its bare name; a NON_NULL
    LIST of a named type [T] renders as "[T]!", and in general the
    rendering of a descriptor is the syntax of the type it describes,
    wrapper by wrapper. *)
Theorem synthesis_deterministic_and_type_syntax :
  (forall q1 q2 i1 i2, q1 = q2 -> i1 = i2 -> generate_query q1 i1 = generate_query q2 i2)
  /\ (forall name t,
        type_to_gql (TypeInfo (Some "NON_NULL") name (Some t))
        = (s <- type_to_gql t ;; Return (s +:+ "!")))
  /\ (forall name t,
        type_to_gql (TypeInfo (Some "LIST") name (Some t))
        = (s <- type_to_gql t ;; Return ("[" +:+ s +:+ "]")))
  /\ (forall kind n ofType,
        kind <> Some "NON_NULL" -> kind <> Some "LIST" -> n <> "" ->
        type_to_gql (TypeInfo kind (Some n) ofType) = Return n)
  /\ (forall named_kind T,
        named_kind <> "NON_NULL" -> named_kind <> "LIST" -> T <> "" ->
        type_to_gql (descriptor named_kind (GNonNull (GList (GNamed T))))
        = Return ("[" +:+ T +:+ "]!"))
  /\ (forall named_kind t,
        named_kind <> "NON_NULL" -> named_kind <> "LIST" -> names_nonempty t ->
        type_to_gql (descriptor named_kind t) = Return (gql_syntax t)).
Proof.
  split; [|split; [|split; [|split; [|split]]]].
  - by intros ? ? ? ? -> ->.
  - reflexivity.
  - reflexivity.
  - intros kind n ofType Hnn Hl Hn.
    destruct kind as [k|]; cbn [type_to_gql opt_str_is].
    + destruct (String.eqb_spec k "NON_NULL"); [congruence|].
      destruct (String.eqb_spec k "LIST"); [congruence|].
      by rewrite truthy_str_Some.
    + by rewrite truthy_str_Some.
  - intros named_kind T Hnn Hl HT.
    rewrite type_to_gql_descriptor by done.
    cbn [gql_syntax]. rewrite !append_assoc. reflexivity.
  - apply type_to_gql_descriptor.
Qed.

(** A generated document, text for text. *)
Example generate_query_snapshot :
  generate_query "variant"
    {| q_args := [{| arg_name := "variantId";
                     arg_type := non_null (scalar_type "String") |};
                  {| arg_name := "dataset";
                     arg_type := non_null (TypeInfo (Some "ENUM") (Some "DatasetId") None) |}];
       q_fields := [("variant_id", leaf "String!");
                    ("exome", node "VariantDetailsSequencingTypeData"
                                [("ac", leaf "Int"); ("an", leaf "Int")]);
                    ("rsids", leaf "[String!]")] |}
  = Return (join nl
      ["query variant($variantId: String!, $dataset: DatasetId!) {";
       "    variant(variantId: $variantId, dataset: $dataset) {";
       "    variant_id";
       "    exome {";
       "      ac";
       "      an";
       "    }";
       "    rsids";
       "    }";
       "}";
       ""]).
Proof. vm_compute. reflexivity. Qed.

Lemma synthesis_deterministic_and_type_syntax_witness :
  type_to_gql (TypeInfo (Some "NON_NULL") None
                 (Some (TypeInfo (Some "LIST") None
                          (Some (TypeInfo (Some "OBJECT") (Some "Variant") None)))))
  = Return "[Variant]!"
  /\ type_to_gql (TypeInfo (Some "LIST") None
                    (Some (TypeInfo (Some "NON_NULL") None
                             (Some (TypeInfo (Some "SCALAR") (Some "String") None)))))
     = Return "[String!]".
Proof.
  destruct synthesis_deterministic_and_type_syntax as (_ & _ & _ & _ & H1 & H2).
  split.
  - apply (H1 "OBJECT" "Variant"); [apply String.eqb_neq; reflexivity..].
  - apply (H2 "SCALAR" (GList (GNonNull (GNamed "String"))));
      [apply String.eqb_neq; reflexivity..].
Defined.

(** ** The type-graph walker *)

Section WalkerFacts.

Variable types_map : gmap string type_def.

Local Abbreviation walker := (walk types_map).
Local Abbreviation awalker := (walk_annotated types_map).
Local Abbreviation unvisited := (unvisited_types types_map).

(** *** More fuel gives the same result *)

Lemma collect_fields_mono
    (w1 w2 : option string -> visited_set -> option (field_map * visited_set)) :
  (forall t V r, w1 t V = Some r -> w2 t V = Some r) ->
  forall fs acc V r,
    collect_fields w1 fs acc V = Some r -> collect_fields w2 fs acc V = Some r.
Proof.
  intros Hw fs. induction fs as [|f fs IH]; intros acc V r; simpl; [done|].
  destruct (negb (is_scalar (_extract_inner_type (field_type f)))); [|apply IH].
  destruct (w1 _ V) as [[sub V1]|] eqn:E; [|done].
  rewrite (Hw _ _ _ E). apply IH.
Qed.

Lemma walk_fuel_mono n m type_name V r :
  n <= m -> walker n type_name V = Some r -> walker m type_name V = Some r.
Proof.
  revert m type_name V r. induction n as [|n IH]; intros m t V r Hle; [done|].
  destruct m as [|m]; [lia|]. simpl.
  destruct (bool_decide (t ∈ V)); [done|].
  destruct (is_scalar t || negb (truthy_str t)); [done|].
  destruct (types_map_get types_map t) as [d|]; [|done].
  destruct (type_fields d) as [fs|]; [|done].
  apply collect_fields_mono. intros t' V' r'. apply IH. lia.
Qed.

(** *** The visited set only grows *)

Lemma collect_fields_visited
    (w : option string -> visited_set -> option (field_map * visited_set)) :
  (forall t V fm V', w t V = Some (fm, V') -> V ⊆ V') ->
  forall fs acc V fm V',
    collect_fields w fs acc V = Some (fm, V') -> V ⊆ V'.
Proof.
  intros Hw fs. induction fs as [|f fs IH]; intros acc V fm V'; simpl.
  - by intros [= _ <-].
  - destruct (negb (is_scalar (_extract_inner_type (field_type f)))); [|apply IH].
    destruct (w _ V) as [[sub V1]|] eqn:E; [|done].
    intros H. apply IH in H. apply Hw in E. set_solver.
Qed.

Lemma walk_visited n type_name V fm V' :
  walker n type_name V = Some (fm, V') -> V ⊆ V' /\ type_name ∈ V'.
Proof.
  revert type_name V fm V'. induction n as [|n IH]; intros t V fm V'; [done|].
  simpl. case_bool_decide as Hin.
  { intros [= _ <-]. done. }
  destruct (is_scalar t || negb (truthy_str t)); [intros [= _ <-]; set_solver|].
  destruct (types_map_get types_map t) as [d|]; [|intros [= _ <-]; set_solver].
  destruct (type_fields d) as [fs|]; [|intros [= _ <-]; set_solver].
  intros H. apply collect_fields_visited in H; [set_solver|].
  intros t' W fm' W' Hw. by apply IH in Hw as [? _].
Qed.

(** *** Termination: the walk needs no more levels than there are types *)

Lemma unvisited_mono V W : V ⊆ W -> size (unvisited W) <= size (unvisited V).
Proof.
  intros H. apply subseteq_size. unfold unvisited_types.
  intros s. rewrite !elem_of_filter. set_solver.
Qed.

Lemma unvisited_mark s V d :
  types_map !! s = Some d -> Some s ∉ V ->
  size (unvisited ({[ Some s ]} ∪ V)) < size (unvisited V).
Proof.
  intros Hd Hs. apply subset_size. unfold unvisited_types. split.
  - intros x. rewrite !elem_of_filter. set_solver.
  - intros Hsub. specialize (Hsub s). rewrite !elem_of_filter in Hsub.
    destruct Hsub as [Hn _]; [|set_solver].
    split; [done|]. apply elem_of_dom. by eexists.
Qed.

Lemma collect_fields_total (n : nat)
    (w : option string -> visited_set -> option (field_map * visited_set)) :
  (forall t V, size (unvisited V) < n -> is_Some (w t V)) ->
  (forall t V fm V', w t V = Some (fm, V') -> V ⊆ V') ->
  forall fs acc V, size (unvisited V) < n -> is_Some (collect_fields w fs acc V).
Proof.
  intros Htot Hmono fs. induction fs as [|f fs IH]; intros acc V Hm; simpl; [done|].
  destruct (negb (is_scalar (_extract_inner_type (field_type f)))); [|by apply IH].
  destruct (Htot (_extract_inner_type (field_type f)) V Hm) as [[sub V1] E].
  rewrite E. apply IH.
  apply Hmono, unvisited_mono in E. lia.
Qed.

Lemma walk_total (n : nat) type_name V :
  size (unvisited V) < n -> is_Some (walker n type_name V).
Proof.
  revert type_name V. induction n as [|n IH]; intros t V Hm; [lia|].
  simpl. case_bool_decide as Hin; [done|].
  destruct (is_scalar t || negb (truthy_str t)); [done|].
  destruct (types_map_get types_map t) as [d|] eqn:Hd; [|done].
  destruct (type_fields d) as [fs|]; [|done].
  apply (collect_fields_total n).
  - apply IH.
  - intros t' W fm W' Hw. by apply walk_visited in Hw as [? _].
  - destruct t as [s|]; [|done]. simpl in Hd.
    pose proof (unvisited_mark s V _ Hd Hin). lia.
Qed.

Lemma unvisited_bound : size (unvisited ∅) < S (size types_map).
Proof.
  pose proof (subseteq_size (unvisited ∅) (dom types_map)) as H.
  rewrite size_dom in H. apply Nat.lt_succ_r, H.
  unfold unvisited_types. intros s. rewrite elem_of_filter. tauto.
Qed.

(** A top-level call always returns. *)
Lemma get_required_fields_for_type_total type_name :
  is_Some (get_required_fields_for_type types_map type_name).
Proof.
  unfold get_required_fields_for_type.
  destruct (walk_total (S (size types_map)) type_name ∅ unvisited_bound) as [r Hr].
  rewrite Hr. by eexists.
Qed.

(** The top-level result is the result at any sufficient fuel. *)
Lemma get_required_fields_for_type_fuel n type_name fm V' :
  walker n type_name ∅ = Some (fm, V') ->
  get_required_fields_for_type types_map type_name = Some fm.
Proof.
  intros Hn. unfold get_required_fields_for_type.
  destruct (walk_total (S (size types_map)) type_name ∅ unvisited_bound) as [r Hr].
  rewrite Hr.
  apply (walk_fuel_mono _ (n + S (size types_map))) in Hr; [|lia].
  apply (walk_fuel_mono _ (n + S (size types_map))) in Hn; [|lia].
  rewrite Hn in Hr. by injection Hr as <-.
Qed.

(** *** Erasing the annotations *)

Lemma erase_map_dict_set k a m :
  erase_map (dict_set k a m) = dict_set k (erase a) (erase_map m).
Proof.
  induction m as [|[k' x] m IH]; simpl; [done|].
  destruct (String.eqb k k'); simpl; [done | by rewrite IH].
Qed.

Lemma collect_fields_erase
    (w : option string -> visited_set -> option (field_map * visited_set))
    (wa : option string -> visited_set -> option (afield_map * visited_set)) :
  (forall t V, w t V = erase_result <$> wa t V) ->
  forall fs acc V,
    collect_fields w fs (erase_map acc) V
    = erase_result <$> collect_fields_annotated wa fs acc V.
Proof.
  intros Hw fs. induction fs as [|f fs IH]; intros acc V; simpl; [done|].
  destruct (negb (is_scalar (_extract_inner_type (field_type f)))).
  - rewrite Hw. destruct (wa _ V) as [[sub V1]|]; simpl; [|done].
    rewrite <- IH, erase_map_dict_set. by destruct sub as [|[k x] sub].
  - by rewrite <- IH, erase_map_dict_set.
Qed.

Lemma walk_annotated_erase n type_name V :
  walker n type_name V = erase_result <$> awalker n type_name V.
Proof.
  revert type_name V. induction n as [|n IH]; intros t V; [done|].
  simpl. destruct (bool_decide (t ∈ V)); [done|].
  destruct (is_scalar t || negb (truthy_str t)); [done|].
  destruct (types_map_get types_map t) as [d|]; [|done].
  destruct (type_fields d) as [fs|]; [|done].
  by apply (collect_fields_erase _ _ IH fs []).
Qed.

(** *** Every type is expanded at most once in a walk *)

Lemma expanded_sub inner t d args l :
  expanded (AField inner t d args (Some l)) = inner :: expanded_map l.
Proof. reflexivity. Qed.

Lemma expanded_dict_set k a m u :
  u ∈ expanded_map (dict_set k a m) -> u ∈ expanded a \/ u ∈ expanded_map m.
Proof.
  induction m as [|[k' x] m IH]; simpl.
  - rewrite app_nil_r. auto.
  - destruct (String.eqb k k'); simpl; rewrite !elem_of_app; [tauto|].
    intros [?|?]; [tauto|]. destruct IH; auto.
Qed.

Lemma NoDup_expanded_dict_set k a m :
  NoDup (expanded_map m) -> NoDup (expanded a) ->
  (forall u, u ∈ expanded a -> u ∉ expanded_map m) ->
  NoDup (expanded_map (dict_set k a m)).
Proof.
  induction m as [|[k' x] m IH]; simpl.
  - intros _ Ha _. by rewrite app_nil_r.
  - rewrite NoDup_app. intros (Hx & Hxm & Hm) Ha Hdisj.
    destruct (String.eqb k k'); simpl; rewrite NoDup_app.
    + split; [done|]. split; [|done].
      intros u Hu Hum. apply (Hdisj u Hu). rewrite elem_of_app. auto.
    + split; [done|]. split.
      * intros u Hu [Hua|Hum]%expanded_dict_set.
        -- apply (Hdisj u Hua). rewrite elem_of_app. auto.
        -- by apply (Hxm u).
      * apply IH; [done..|].
        intros u Hu Hum. apply (Hdisj u Hu). rewrite elem_of_app. auto.
Qed.

Lemma collect_fields_expands_fresh
    (wa : option string -> visited_set -> option (afield_map * visited_set))
    (V0 : visited_set) :
  (forall t V r, wa t V = Some r -> expands_fresh t V r) ->
  forall fs acc V r,
    collect_fields_annotated wa fs acc V = Some r ->
    V0 ⊆ V ->
    NoDup (expanded_map acc) ->
    (forall u, u ∈ expanded_map acc -> (u ∉ V0) /\ (u ∈ V)) ->
    V ⊆ r.2
    /\ NoDup (expanded_map r.1)
    /\ (forall u, u ∈ expanded_map r.1 -> (u ∉ V0) /\ (u ∈ r.2)).
Proof.
  intros Hwa fs. induction fs as [|f fs IH]; intros acc V r; simpl.
  - intros [= <-]. simpl. auto.
  - set (inner := _extract_inner_type (field_type f)).
    destruct (negb (is_scalar inner)).
    + destruct (wa inner V) as [[sub V1]|] eqn:E; [|done].
      apply Hwa in E as (Hsub & Hne & Hnd & Hfresh). simpl in *.
      intros Hr HV0 Hacc Hold.
      apply IH in Hr as (? & ? & ?); [split; [set_solver|done] | set_solver | |].
      * apply NoDup_expanded_dict_set; [done| |].
        -- destruct sub as [|e sub]; [constructor|].
           rewrite expanded_sub. apply NoDup_cons. split; [|done].
           intros Hin. apply Hfresh in Hin. set_solver.
        -- intros u Hu Hua. apply Hold in Hua as [_ HuV].
           destruct sub as [|e sub]; [by apply elem_of_nil in Hu|].
           rewrite expanded_sub in Hu. apply elem_of_cons in Hu as [->|Hu].
           ++ by apply Hne.
           ++ apply Hfresh in Hu. set_solver.
      * intros u [Hu|Hu]%expanded_dict_set.
        -- destruct sub as [|e sub]; [by apply elem_of_nil in Hu|].
           rewrite expanded_sub in Hu. apply elem_of_cons in Hu as [->|Hu].
           ++ split; [|set_solver]. intros HuV0. apply Hne; [done|set_solver].
           ++ apply Hfresh in Hu. set_solver.
        -- apply Hold in Hu. set_solver.
    + intros Hr HV0 Hacc Hold. apply IH in Hr; [done..| |].
      * apply NoDup_expanded_dict_set; [done|constructor|].
        intros u Hu. by apply elem_of_nil in Hu.
      * intros u [Hu|Hu]%expanded_dict_set; [by apply elem_of_nil in Hu|auto].
Qed.

Lemma walk_expands_fresh n type_name V r :
  awalker n type_name V = Some r -> expands_fresh type_name V r.
Proof.
  revert type_name V r. induction n as [|n IH]; intros t V r; [done|].
  simpl. case_bool_decide as Hin.
  { intros [= <-]. unfold expands_fresh. simpl.
    repeat split; try set_solver. constructor. }
  assert (expands_fresh t V ([], {[ t ]} ∪ V)) as Hnil.
  { unfold expands_fresh. simpl. repeat split; try set_solver. constructor. }
  destruct (is_scalar t || negb (truthy_str t)); [by intros [= <-]|].
  destruct (types_map_get types_map t) as [d|]; [|by intros [= <-]].
  destruct (type_fields d) as [fs|]; [|by intros [= <-]].
  intros Hr.
  apply (collect_fields_expands_fresh _ ({[ t ]} ∪ V) IH) in Hr
    as (Hsub & Hnd & Hfresh); [|done|constructor|].
  - unfold expands_fresh. split; [set_solver|]. split; [done|]. split; [done|].
    intros u Hu. by apply Hfresh.
  - intros u Hu. by apply elem_of_nil in Hu.
Qed.

(** The types on a descent are among the expanded types, in order. *)
Lemma expanded_entry_sublist k a m :
  (k, a) ∈ m -> expanded a `sublist_of` expanded_map m.
Proof.
  induction m as [|[k' x] m IH]; [by intros ?%elem_of_nil|].
  intros [[= <- <-]|Hin]%elem_of_cons; simpl.
  - by apply sublist_inserts_r.
  - by apply sublist_inserts_l, IH.
Qed.

Lemma on_path_sublist m p : on_path m p -> p `sublist_of` expanded_map m.
Proof.
  induction 1 as [m | m k inner t d args sub p Hin _ IH].
  - apply sublist_nil_l.
  - apply expanded_entry_sublist in Hin. rewrite expanded_sub in Hin.
    etrans; [|exact Hin]. by apply sublist_skip.
Qed.

(** The inner type name found by [_extract_inner_type] is never empty. *)
Lemma extract_inner_type_nonempty :
  forall t s, _extract_inner_type t = Some s -> s <> "".
Proof.
  fix IH 1. intros [kind name ofType] s. simpl.
  destruct (truthy_str name) eqn:E.
  - intros -> ->. discriminate E.
  - destruct ofType as [t|]; [apply IH | discriminate].
Qed.



End WalkerFacts.

(** ** The walker on concrete schemas *)




(** * Further properties *)

(** ** The dispatcher: which outcomes a call can have *)

(** [detect_version] raises nothing but [ValueError]. *)
Lemma detect_version_raises dataset rg e :
  detect_version dataset rg = Raise e -> exists msg, e = ValueError msg.
Proof.
  destruct (dataset_version dataset) as [v|] eqn:Hd.
  - by rewrite (detect_version_dataset _ _ _ Hd).
  - rewrite (detect_version_genome _ _ Hd).
    destruct (match_ref_genome REF_GENOME_MAP rg); [done|]. intros [= <-]. eauto.
Qed.

(** [detect_version] returns only versions that have a query list. *)
Lemma detect_version_range dataset rg v :
  detect_version dataset rg = Return v ->
  exists supported, version_queries (PyStr v) = Return supported.
Proof.
  destruct (dataset_version dataset) as [w|] eqn:Hd.
  - rewrite (detect_version_dataset _ _ _ Hd). intros [= <-].
    destruct dataset as [|ds|n]; try done. unfold dataset_version in Hd.
    destruct (String.eqb ds ""); [done|]. unfold ALL_DATASET_TO_VERSION, assoc in Hd.
    repeat match type of Hd with
           | (if ?b then _ else _) = _ => destruct b
           end; try discriminate; injection Hd as <-; by eexists.
  - rewrite (detect_version_genome _ _ Hd), match_ref_genome_cases.
    destruct (eq_str rg "GRCh37"); [intros [= <-]; by eexists|].
    destruct (eq_str rg "GRCh38"); [intros [= <-]; by eexists|]. discriminate.
Qed.

(** The default dataset of a version resolves back to the version, whatever
    the reference genome. *)
Lemma default_dataset_resolves_back version supported d rg :
  version_queries version = Return supported ->
  dict_getitem DATASET_MAP version = Return d ->
  detect_version (PyStr d) rg = Return (str version).
Proof.
  intros Hq. destruct (version_queries_valid _ _ Hq) as [-> | [-> | ->]];
    intros [= <-]; reflexivity.
Qed.

Section DispatcherOutcomes.

Context {json : Type}.
Variable read_file : string -> option string.
Variable execute_query_sync : string -> gmap string pyval -> outcome json.

Local Abbreviation run := (run_query json read_file execute_query_sync).
Local Abbreviation load := (load_and_execute json read_file execute_query_sync).

(** X1: once the version is resolved to one with a query list, the query
    name is in that list and the completed (dataset, reference genome) pair
    resolves to the same version, [run_query] reads the document at
    [gnomad/queries/<version>/<query>.graphql] -- the resolved version's own
    document -- and either raises "Query file not found: <path>" or hands that
    text and the caller's variables to the transport, whose result or
    exception is the result of the call. *)
Theorem run_query_executes_version_document
    q variables v supported dataset reference_genome :
  resolve_version variables = Return (PyStr v) ->
  version_queries (PyStr v) = Return supported ->
  in_list q supported = true ->
  complete_dataset variables (PyStr v) = Return dataset ->
  complete_reference_genome variables (PyStr v) = Return reference_genome ->
  detect_version dataset reference_genome = Return v ->
  run q variables
  = match read_file ("gnomad/queries/" +:+ v +:+ "/" +:+ q +:+ ".graphql") with
    | None =>
        Raise (ValueError ("Query file not found: "
                           +:+ "gnomad/queries/" +:+ v +:+ "/" +:+ q +:+ ".graphql"))
    | Some query_str =>
        match execute_query_sync query_str variables with
        | Return j => Return (Result j)
        | Raise e => Raise e
        end
    end.
Proof.
  intros Hv Hq Hin Hd Hg He.
  rewrite (run_query_settled _ _ q _ _ _ _ Hv Hd Hg).
  unfold validate_and_execute, check_and_execute. rewrite Hq. simpl.
  rewrite Hin, He. simpl. rewrite String.eqb_refl. simpl.
  unfold query_path. simpl. by destruct (read_file _).
Qed.

Lemma run_query_loads q variables v supported dataset reference_genome :
  resolve_version variables = Return (PyStr v) ->
  version_queries (PyStr v) = Return supported ->
  in_list q supported = true ->
  complete_dataset variables (PyStr v) = Return dataset ->
  complete_reference_genome variables (PyStr v) = Return reference_genome ->
  detect_version dataset reference_genome = Return v ->
  run q variables = load (PyStr v) q variables.
Proof.
  intros Hv Hq Hin Hd Hg He.
  rewrite (run_query_settled _ _ q _ _ _ _ Hv Hd Hg).
  unfold validate_and_execute, check_and_execute. rewrite Hq. simpl.
  rewrite Hin, He. simpl. by rewrite String.eqb_refl.
Qed.

(** X2: a call without a version hint has one of four outcomes: the error
    value "Cannot determine version ..." (detection failed), the
    unsupported-query [ValueError], the missing-file [ValueError], or the
    transport's own outcome.  It never raises [KeyError], "Unknown gnomAD
    version" or "Inconsistent version". *)
Theorem run_query_without_hint q variables :
  truthy (dict_get variables "version") = false ->
  run q variables
  = Return (ErrorDict "Cannot determine version from dataset/reference_genome/version.")
  \/ exists v supported,
       detect_version (dict_get variables "dataset")
                      (dict_get variables "reference_genome") = Return v
       /\ version_queries (PyStr v) = Return supported
       /\ run q variables
          = if in_list q supported then load (PyStr v) q variables
            else Raise (ValueError (unsupported_message q (PyStr v) supported)).
Proof.
  intros Hnohint.
  destruct (detect_version (dict_get variables "dataset")
              (dict_get variables "reference_genome")) as [v|e] eqn:Hdet.
  - right. destruct (detect_version_range _ _ _ Hdet) as [supported Hq].
    exists v, supported. split; [done|]. split; [done|].
    assert (resolve_version variables = Return (PyStr v)) as Hv.
    { unfold resolve_version. by rewrite Hnohint, Hdet. }
    destruct (completion_returns variables _ _ Hq) as (d & g & Hd & Hg).
    destruct (in_list q supported) eqn:Hin.
    + apply (run_query_loads _ _ _ _ _ _ Hv Hq Hin Hd Hg).
      by apply (recheck_without_hint variables).
    + rewrite (run_query_settled _ _ q _ _ _ _ Hv Hd Hg).
      unfold validate_and_execute. rewrite Hq. simpl. by rewrite Hin.
  - left. destruct (detect_version_raises _ _ _ Hdet) as [msg ->].
    unfold run_query, resolve_version. by rewrite Hnohint, Hdet.
Qed.

(** X3: a valid version hint without a dataset always passes the
    consistency check, whatever reference genome comes with it: the
    version's default dataset is completed and decides the second
    resolution.  For a supported query the call goes to the document of the
    hinted version. *)
Theorem valid_hint_without_dataset_is_consistent q variables supported :
  truthy (dict_get variables "version") = true ->
  version_queries (dict_get variables "version") = Return supported ->
  truthy (dict_get variables "dataset") = false ->
  in_list q supported = true ->
  run q variables = load (dict_get variables "version") q variables.
Proof.
  intros Hhint Hq Hnods Hin.
  assert (exists v, dict_get variables "version" = PyStr v) as [v Hver].
  { destruct (version_queries_valid _ _ Hq) as [-> | [-> | ->]]; eauto. }
  rewrite Hver in *.
  assert (resolve_version variables = Return (PyStr v)) as Hv.
  { unfold resolve_version. by rewrite Hver, Hhint. }
  destruct (completion_returns variables _ _ Hq) as (d & g & Hd & Hg).
  apply (run_query_loads _ _ _ _ _ _ Hv Hq Hin Hd Hg).
  unfold complete_dataset in Hd. rewrite Hnods in Hd. cbn [negb] in Hd.
  destruct (dict_getitem DATASET_MAP (PyStr v)) as [d'|] eqn:Hd'; [|discriminate Hd].
  cbn [bind] in Hd. injection Hd as <-.
  apply (default_dataset_resolves_back _ _ _ g Hq Hd').
Qed.

(** X4: a version hint that is not "v2", "v3" or "v4" never yields the
    error value and never reaches the transport: the call raises the
    [KeyError] of the first default it has to look up, or, when the caller
    supplied both dataset and reference genome, the [ValueError] "Unknown
    gnomAD version: <hint>". *)
Theorem invalid_hint_outcomes q variables :
  truthy (dict_get variables "version") = true ->
  dict_get variables "version" <> PyStr "v2" ->
  dict_get variables "version" <> PyStr "v3" ->
  dict_get variables "version" <> PyStr "v4" ->
  run q variables
  = if truthy (dict_get variables "dataset")
       && truthy (dict_get variables "reference_genome")
    then Raise (ValueError ("Unknown gnomAD version: "
                            +:+ str (dict_get variables "version")))
    else Raise (KeyError (dict_get variables "version")).
Proof.
  intros Hhint H2 H3 H4.
  set (version := dict_get variables "version") in *.
  assert (forall d : list (string * string),
             (forall k, is_Some (assoc k d) -> k = "v2" \/ k = "v3" \/ k = "v4") ->
             dict_getitem d version = Raise (KeyError version)) as Hkey.
  { intros d Hkeys. destruct version as [|s|n]; try done. unfold dict_getitem.
    destruct (assoc s d) eqn:Ha; [|done]. exfalso.
    destruct (Hkeys s) as [-> | [-> | ->]]; [by eexists|done..]. }
  assert (dict_getitem DATASET_MAP version = Raise (KeyError version)) as HD.
  { apply Hkey. intros k [x Hk]. unfold DATASET_MAP, assoc in Hk.
    destruct (String.eqb_spec k "v2"); [auto|].
    destruct (String.eqb_spec k "v3"); [auto|].
    destruct (String.eqb_spec k "v4"); [auto|]. discriminate. }
  assert (dict_getitem REF_GENOME_MAP version = Raise (KeyError version)) as HG.
  { apply Hkey. intros k [x Hk]. unfold REF_GENOME_MAP, assoc in Hk.
    destruct (String.eqb_spec k "v2"); [auto|].
    destruct (String.eqb_spec k "v3"); [auto|].
    destruct (String.eqb_spec k "v4"); [auto|]. discriminate. }
  unfold run_query, resolve_version, complete_dataset, complete_reference_genome.
  fold version. rewrite Hhint. simpl.
  destruct (truthy (dict_get variables "dataset")); simpl.
  - destruct (truthy (dict_get variables "reference_genome")); simpl.
    + unfold validate_and_execute, version_queries.
      apply eq_str_false in H2, H3, H4. by rewrite H2, H3, H4.
    + by rewrite HG.
  - by rewrite HD.
Qed.

(** X5: the only error value [run_query] produces itself is the one of
    version resolution, and only when no version hint was given: the
    handlers "Cannot determine dataset ..." and "Cannot determine
    reference_genome ..." never fire, because the lookups they guard raise
    [KeyError], not [ValueError]. *)
Theorem only_version_error_value q variables msg :
  run q variables = Return (ErrorDict msg) ->
  msg = "Cannot determine version from dataset/reference_genome/version."
  /\ truthy (dict_get variables "version") = false
  /\ exists why,
       detect_version (dict_get variables "dataset")
                      (dict_get variables "reference_genome")
       = Raise (ValueError why).
Proof.
  unfold run_query, resolve_version.
  destruct (truthy (dict_get variables "version")) eqn:Hhint; simpl.
  - unfold complete_dataset, complete_reference_genome, try_value_error.
    set (version := dict_get variables "version").
    assert (forall d, match dict_getitem d version with
                      | Raise (ValueError _) => False
                      | _ => True
                      end) as Hnov.
    { intros d. unfold dict_getitem. destruct version; try done.
      by destruct (assoc s d). }
    intros H. exfalso. revert H.
    destruct (truthy (dict_get variables "dataset")); simpl.
    + destruct (truthy (dict_get variables "reference_genome")); simpl.
      * unfold validate_and_execute, check_and_execute, bind.
        repeat case_match; discriminate.
      * pose proof (Hnov REF_GENOME_MAP) as HG.
        destruct (dict_getitem REF_GENOME_MAP version) as [g|[]]; simpl; try done.
        unfold validate_and_execute, check_and_execute, bind.
        repeat case_match; discriminate.
    + pose proof (Hnov DATASET_MAP) as HD.
      destruct (dict_getitem DATASET_MAP version) as [d|[]]; simpl; try done.
      destruct (truthy (dict_get variables "reference_genome")); simpl.
      * unfold validate_and_execute, check_and_execute, bind.
        repeat case_match; discriminate.
      * pose proof (Hnov REF_GENOME_MAP) as HG.
        destruct (dict_getitem REF_GENOME_MAP version) as [g|[]]; simpl; try done.
        unfold validate_and_execute, check_and_execute, bind.
        repeat case_match; discriminate.
  - destruct (detect_version _ _) as [v|e] eqn:Hdet.
    + destruct (detect_version_range _ _ _ Hdet) as [supported Hq].
      destruct (completion_returns variables _ _ Hq) as (d & g & Hd & Hg).
      cbn [bind try_value_error]. rewrite Hd. cbn [try_value_error].
      rewrite Hg. cbn [try_value_error].
      unfold validate_and_execute, check_and_execute, bind.
      repeat case_match; discriminate.
    + destruct (detect_version_raises _ _ _ Hdet) as [why ->].
      cbn [bind try_value_error]. intros [= <-]. eauto.
Qed.

End DispatcherOutcomes.

(** *** Examples of the outcomes *)

Lemma run_query_executes_version_document_witness :
  read_file_v2_variant "gnomad/queries/v2/variant.graphql" = Some "query variant { v2 }"
  /\ run_query _ read_file_v2_variant echo_transport "variant" vars_v2_complete
     = Return (Result vars_v2_complete)
  /\ run_query _ read_file_v2_variant echo_transport "meta" vars_v2_complete
     = Raise (ValueError "Query file not found: gnomad/queries/v2/meta.graphql").
Proof.
  split; [reflexivity|]. split.
  - rewrite (run_query_executes_version_document read_file_v2_variant echo_transport
               "variant" vars_v2_complete "v2" V2.SUPPORTED_QUERIES
               (PyStr "gnomad_r2_1") (PyStr "GRCh37"));
      [reflexivity | vm_compute; reflexivity..].
  - rewrite (run_query_executes_version_document read_file_v2_variant echo_transport
               "meta" vars_v2_complete "v2" V2.SUPPORTED_QUERIES
               (PyStr "gnomad_r2_1") (PyStr "GRCh37"));
      [reflexivity | vm_compute; reflexivity..].
Defined.

Lemma run_query_without_hint_witness :
  truthy (dict_get vars_contradictory "version") = false
  /\ (run_query _ store_all echo_transport "liftover" vars_contradictory
      = Return (ErrorDict
          "Cannot determine version from dataset/reference_genome/version.")
      \/ exists v supported,
           detect_version (dict_get vars_contradictory "dataset")
                          (dict_get vars_contradictory "reference_genome") = Return v
           /\ version_queries (PyStr v) = Return supported
           /\ run_query _ store_all echo_transport "liftover" vars_contradictory
              = if in_list "liftover" supported
                then load_and_execute _ store_all echo_transport (PyStr v) "liftover"
                       vars_contradictory
                else Raise (ValueError
                       (unsupported_message "liftover" (PyStr v) supported))).
Proof.
  split; [vm_compute; reflexivity|].
  apply (run_query_without_hint store_all echo_transport "liftover" vars_contradictory).
  vm_compute; reflexivity.
Defined.

Lemma valid_hint_without_dataset_is_consistent_witness :
  truthy (dict_get vars_hint_v4_genome_37 "version") = true
  /\ run_query _ store_all echo_transport "region" vars_hint_v4_genome_37
     = Return (Result vars_hint_v4_genome_37).
Proof.
  split; [vm_compute; reflexivity|].
  rewrite (valid_hint_without_dataset_is_consistent store_all echo_transport
             "region" vars_hint_v4_genome_37 V4.SUPPORTED_QUERIES);
    vm_compute; reflexivity.
Defined.

Lemma invalid_hint_outcomes_witness :
  run_query _ store_all echo_transport "meta" vars_bad_hint_complete
  = Raise (ValueError "Unknown gnomAD version: v5")
  /\ run_query _ store_all echo_transport "meta" vars_bad_hint_dataset
     = Raise (KeyError (PyStr "v5")).
Proof.
  split.
  - rewrite (invalid_hint_outcomes store_all echo_transport "meta" vars_bad_hint_complete);
      [vm_compute; reflexivity | vm_compute; reflexivity
      | apply eq_str_false; vm_compute; reflexivity..].
  - rewrite (invalid_hint_outcomes store_all echo_transport "meta" vars_bad_hint_dataset);
      [vm_compute; reflexivity | vm_compute; reflexivity
      | apply eq_str_false; vm_compute; reflexivity..].
Defined.

Lemma only_version_error_value_witness :
  run_query _ store_all echo_transport "meta" vars_unknown_dataset
  = Return (ErrorDict "Cannot determine version from dataset/reference_genome/version.")
  /\ truthy (dict_get vars_unknown_dataset "version") = false.
Proof.
  assert (run_query _ store_all echo_transport "meta" vars_unknown_dataset
          = Return (ErrorDict
              "Cannot determine version from dataset/reference_genome/version."))
    as Hrun by (vm_compute; reflexivity).
  split; [exact Hrun|].
  exact (proj1 (proj2 (only_version_error_value store_all echo_transport "meta"
                         vars_unknown_dataset _ Hrun))).
Defined.

(** ** The tools of the server *)

Import ServerTools.

Lemma dict_get_insert_eq k v (m : gmap string pyval) : dict_get (<[ k := v ]> m) k = v.
Proof. unfold dict_get. by rewrite lookup_insert_eq. Qed.

Lemma dict_get_insert_ne k k' v (m : gmap string pyval) :
  String.eqb k k' = false -> dict_get (<[ k := v ]> m) k' = dict_get m k'.
Proof.
  intros Hne%String.eqb_neq. unfold dict_get. by rewrite lookup_insert_ne.
Qed.

Lemma dict_get_empty k : dict_get ∅ k = PyNone.
Proof. reflexivity. Qed.

Ltac dict_gets :=
  repeat first [ rewrite dict_get_insert_eq
               | rewrite dict_get_insert_ne by reflexivity
               | rewrite dict_get_empty ].

Section ToolsAndDispatcher.

Context {json : Type}.
Variable read_file : string -> option string.
Variable execute_query_sync : string -> gmap string pyval -> outcome json.

Local Abbreviation run := (run_query json read_file execute_query_sync).
Local Abbreviation load := (load_and_execute json read_file execute_query_sync).

(** A call whose version is detected and whose query is supported goes to
    the version's document. *)
Lemma run_query_detected q variables v supported :
  truthy (dict_get variables "version") = false ->
  detect_version (dict_get variables "dataset")
                 (dict_get variables "reference_genome") = Return v ->
  version_queries (PyStr v) = Return supported ->
  in_list q supported = true ->
  run q variables = load (PyStr v) q variables.
Proof.
  intros Hnohint Hdet Hq Hin.
  assert (resolve_version variables = Return (PyStr v)) as Hv.
  { unfold resolve_version. by rewrite Hnohint, Hdet. }
  destruct (completion_returns variables _ _ Hq) as (d & g & Hd & Hg).
  apply (run_query_loads _ _ _ _ _ _ _ _ Hv Hq Hin Hd Hg).
  by apply (recheck_without_hint variables).
Qed.

(** X6: the restrictions of the tools agree with the version registry.
    Whenever one of the six restricted tools (gene, region, mitochondrial
    variant, copy number variant, STR, liftover) accepts a call, the
    dispatcher resolves the version the tool is documented for, finds the
    query supported and the hints consistent, and goes on to that version's
    document: such a call never fails validation in [run_query].  (This
    holds for the STR tool whatever reference genome it is given.) *)
Theorem restricted_tools_pass_validation c q variables :
  restricted c = true ->
  call_tool c = Dispatch q variables ->
  run q variables = load (PyStr (documented_version c)) q variables.
Proof.
  destruct c as [i s d g | | g ch a b d | | | g v d | | g v d | | g i d | g src l d | ];
    try discriminate; intros _; cbn [call_tool documented_version].
  - unfold get_gene_info.
    destruct (eq_str d "gnomad_r4") eqn:Hd; [|discriminate].
    destruct (eq_str g "GRCh38") eqn:Hg; [|discriminate].
    apply eq_str_true in Hd as ->. apply eq_str_true in Hg as ->. cbn [negb].
    destruct (negb (truthy i) && negb (truthy s)); [discriminate|].
    intros [= <- <-].
    apply (run_query_detected _ _ "v4" V4.SUPPORTED_QUERIES);
      dict_gets; reflexivity.
  - unfold get_region_info.
    destruct (eq_str d "gnomad_r4") eqn:Hd; [|discriminate].
    destruct (eq_str g "GRCh38") eqn:Hg; [|discriminate].
    apply eq_str_true in Hd as ->. apply eq_str_true in Hg as ->. cbn [negb].
    intros [= <- <-].
    apply (run_query_detected _ _ "v4" V4.SUPPORTED_QUERIES);
      dict_gets; reflexivity.
  - unfold get_mitochondrial_variant_info.
    destruct (eq_str d "gnomad_r4") eqn:Hd; [|discriminate].
    destruct (eq_str g "GRCh38") eqn:Hg; [|discriminate].
    apply eq_str_true in Hd as ->. apply eq_str_true in Hg as ->. cbn [negb].
    intros [= <- <-].
    apply (run_query_detected _ _ "v4" V4.SUPPORTED_QUERIES);
      dict_gets; reflexivity.
  - unfold get_copy_number_variant_info.
    destruct (eq_str d "gnomad_cnv_r4") eqn:Hd; [|discriminate].
    destruct (eq_str g "GRCh38") eqn:Hg; [|discriminate].
    apply eq_str_true in Hd as ->. apply eq_str_true in Hg as ->. cbn [negb].
    intros [= <- <-].
    apply (run_query_detected _ _ "v4" V4.SUPPORTED_QUERIES);
      dict_gets; reflexivity.
  - unfold get_str_info.
    destruct (eq_str d "gnomad_r4") eqn:Hd; [|discriminate].
    apply eq_str_true in Hd as ->. cbn [negb].
    intros [= <- <-].
    apply (run_query_detected _ _ "v4" V4.SUPPORTED_QUERIES);
      dict_gets; reflexivity.
  - rewrite liftover_cases.
    destruct (eq_str d "gnomad_r2_1") eqn:Hd; [|discriminate].
    apply eq_str_true in Hd as ->. cbn [negb].
    destruct (truthy src), (truthy l); try discriminate.
    + destruct (eq_str g "GRCh37"); [|discriminate]. intros [= <- <-].
      apply (run_query_detected _ _ "v2" V2.SUPPORTED_QUERIES);
        dict_gets; reflexivity.
    + destruct (eq_str g "GRCh38"); [|discriminate]. intros [= <- <-].
      apply (run_query_detected _ _ "v2" V2.SUPPORTED_QUERIES);
        dict_gets; reflexivity.
Qed.

End ToolsAndDispatcher.

(** X7: no tool passes a version hint.  The variables of every dispatched
    tool call have no "version" entry and carry the call's [dataset] and
    [reference_genome] arguments unchanged, and the query name is one the
    registry knows; so for tool calls the version is always detected from
    the dataset (or else the genome), never taken from a hint. *)
Theorem tools_never_pass_version_hint c q variables :
  call_tool c = Dispatch q variables ->
  variables !! "version" = None
  /\ variables !! "dataset" = Some (dataset_arg c)
  /\ variables !! "reference_genome" = Some (genome_arg c)
  /\ in_list q (V2.SUPPORTED_QUERIES ++ V4.SUPPORTED_QUERIES) = true.
Proof.
  destruct c; cbn [call_tool dataset_arg genome_arg];
    try (intros [= <- <-]; by simplify_map_eq).
  - unfold get_gene_info. repeat case_match; try discriminate.
    intros [= <- <-]. by simplify_map_eq.
  - unfold get_region_info. repeat case_match; try discriminate.
    intros [= <- <-]. by simplify_map_eq.
  - unfold get_mitochondrial_variant_info. repeat case_match; try discriminate.
    intros [= <- <-]. by simplify_map_eq.
  - unfold get_copy_number_variant_info. repeat case_match; try discriminate.
    intros [= <- <-]. by simplify_map_eq.
  - unfold get_str_info. repeat case_match; try discriminate.
    intros [= <- <-]. by simplify_map_eq.
  - rewrite liftover_cases. repeat case_match; try discriminate;
      intros [= <- <-]; by simplify_map_eq.
Qed.

(** ** The other methods of the schema analyzer *)

Import SchemaAnalyzerMethods.

Lemma find_type_app n l1 l2 :
  find_type n (l1 ++ l2)
  = match find_type n l1 with Some t => Some t | None => find_type n l2 end.
Proof.
  induction l1 as [|t l1 IH]; simpl; [done|]. by destruct (String.eqb (st_name t) n).
Qed.

Lemma build_types_map_fold (l : list schema_type) (m : gmap string type_def) n :
  fold_left (fun types_map t => <[ st_name t := type_def_of t ]> types_map) l m !! n
  = match find_type n (rev l) with
    | Some t => Some (type_def_of t)
    | None => m !! n
    end.
Proof.
  revert m. induction l as [|t l IH]; intros m; simpl; [done|].
  rewrite IH, find_type_app. destruct (find_type n (rev l)); [done|]. simpl.
  destruct (String.eqb_spec (st_name t) n) as [->|Hne].
  - by rewrite lookup_insert_eq.
  - by rewrite lookup_insert_ne.
Qed.

(** X8: in the types map the last definition of a name wins: looking a name
    up gives the last type of the schema list with that name (as the walker
    reads it), and nothing for a name the list does not have -- whereas
    [get_query_fields] takes the first type named "Query". *)
Theorem build_types_map_lookup types n :
  _build_types_map types !! n = type_def_of <$> find_type n (rev types).
Proof.
  unfold _build_types_map. rewrite build_types_map_fold.
  by destruct (find_type n (rev types)).
Qed.

(** Assignments to an insertion-ordered dict. *)
Lemma dict_set_fresh {V} k (v : V) d :
  k ∉ map fst d -> dict_set k v d = (d ++ [(k, v)])%list.
Proof.
  induction d as [|[k' v'] d IH]; simpl; [done|].
  intros Hk. apply not_elem_of_cons in Hk as [Hne Hk].
  destruct (String.eqb_spec k k'); [done|]. by rewrite IH.
Qed.

Lemma dict_set_elem {V} k (v : V) d k' v' :
  (k', v') ∈ dict_set k v d -> (k' = k /\ v' = v) \/ (k', v') ∈ d.
Proof.
  induction d as [|[k0 v0] d IH]; simpl.
  - intros [= -> ->]%list_elem_of_singleton. auto.
  - destruct (String.eqb_spec k k0) as [->|Hne].
    + intros [[= -> ->]|Hin]%elem_of_cons; [auto|]. right. by apply elem_of_cons; right.
    + intros [[= -> ->]|Hin]%elem_of_cons.
      * right. by apply elem_of_cons; left.
      * destruct (IH Hin); [auto|]. right. by apply elem_of_cons; right.
Qed.

Lemma dict_set_keys_elem {V} k (v : V) d k' :
  k' ∈ map fst (dict_set k v d) <-> k' = k \/ k' ∈ map fst d.
Proof.
  induction d as [|[k0 v0] d IH]; simpl.
  - rewrite list_elem_of_singleton. set_solver.
  - destruct (String.eqb_spec k k0) as [->|Hne]; simpl.
    + rewrite !elem_of_cons. tauto.
    + rewrite !elem_of_cons, IH. tauto.
Qed.

Lemma dict_set_keys_NoDup {V} k (v : V) d :
  NoDup (map fst d) -> NoDup (map fst (dict_set k v d)).
Proof.
  induction d as [|[k0 v0] d IH]; simpl.
  - intros _. apply NoDup_singleton.
  - rewrite NoDup_cons. intros [Hk0 Hd].
    destruct (String.eqb_spec k k0) as [->|Hne]; simpl.
    + by apply NoDup_cons.
    + apply NoDup_cons. split; [|by apply IH].
      rewrite dict_set_keys_elem. intros [->|?]; done.
Qed.

Lemma find_field_unique pre f suf :
  NoDup (map field_name (pre ++ f :: suf)%list) ->
  find_field (field_name f) (pre ++ f :: suf)%list = Some f.
Proof.
  induction pre as [|g pre IH]; simpl.
  - by rewrite String.eqb_refl.
  - rewrite NoDup_cons. intros [Hg Hnd].
    destruct (String.eqb_spec (field_name g) (field_name f)) as [Heq|_]; [|by apply IH].
    exfalso. apply Hg. rewrite Heq, map_app. apply elem_of_app. right.
    simpl. apply elem_of_cons. by left.
Qed.

Lemma query_entry_key types f k e :
  query_entry types f = Some (k, e) -> k = field_name f.
Proof. unfold query_entry. destruct (truthy_str _); [|done]. by intros [= <- _]. Qed.

Lemma query_entries_keys types fs k :
  k ∈ map fst (omap (query_entry types) fs) -> k ∈ map field_name fs.
Proof.
  induction fs as [|f fs IH]; simpl; [done|].
  destruct (query_entry types f) as [[k' e]|] eqn:E; simpl.
  - intros [->|Hin]%elem_of_cons.
    + apply query_entry_key in E as ->. apply elem_of_cons. by left.
    + apply elem_of_cons. right. by apply IH.
  - intros Hin. apply elem_of_cons. right. by apply IH.
Qed.

Lemma query_field_map_loop_unique types pre suf :
  get_query_fields types = Some (pre ++ suf)%list ->
  NoDup (map field_name (pre ++ suf)%list) ->
  query_field_map_loop types suf (omap (query_entry types) pre)
  = Return (omap (query_entry types) (pre ++ suf)%list).
Proof.
  revert pre. induction suf as [|f suf IH]; intros pre Hq Hnd; simpl.
  - by rewrite app_nil_r.
  - unfold get_query_return_type, get_query_by_name. rewrite Hq. simpl.
    rewrite (find_field_unique _ _ _ Hnd). simpl.
    assert ((pre ++ f :: suf = (pre ++ [f]) ++ suf)%list) as Happ
      by (by rewrite <- app_assoc).
    rewrite Happ in Hq, Hnd |- *. rewrite <- (IH (pre ++ [f])%list Hq Hnd).
    rewrite omap_app.
    destruct (truthy_str (name_of (innermost (field_type f)))) eqn:Ht.
    + assert (omap (query_entry types) [f]
              = [(field_name f,
                  {| qi_return_type := default "" (name_of (innermost (field_type f)));
                     qi_description := default (PyStr "") (field_description f);
                     qi_args := field_args f;
                     qi_fields := required_fields (_build_types_map types)
                                    (name_of (innermost (field_type f))) |})]) as ->.
      { simpl. unfold query_entry. by rewrite Ht. }
      rewrite dict_set_fresh; [done|]. intros Hin%query_entries_keys.
      rewrite <- app_assoc in Hnd. simpl in Hnd.
      rewrite map_app in Hnd. apply NoDup_app in Hnd as (_ & Hdisj & _).
      apply (Hdisj _ Hin). simpl. apply elem_of_cons. by left.
    + assert (omap (query_entry types) [f] = []) as ->.
      { simpl. unfold query_entry. by rewrite Ht. }
      by rewrite app_nil_r.
Qed.


Lemma query_field_map_loop_returns types qfs fs acc :
  get_query_fields types = Some qfs ->
  (forall k e, (k, e) ∈ acc ->
     truthy_str (Some (qi_return_type e)) = true
     /\ qi_fields e
        = required_fields (_build_types_map types) (Some (qi_return_type e))) ->
  NoDup (map fst acc) ->
  exists r,
    query_field_map_loop types fs acc = Return r
    /\ NoDup (map fst r)
    /\ (forall k, k ∈ map fst r -> k ∈ map fst acc \/ k ∈ map field_name fs)
    /\ (forall k e, (k, e) ∈ r ->
          truthy_str (Some (qi_return_type e)) = true
          /\ qi_fields e
             = required_fields (_build_types_map types) (Some (qi_return_type e))).
Proof.
  intros Hq. revert acc. induction fs as [|f fs IH]; intros acc Hacc Hnd; simpl.
  - exists acc. auto.
  - unfold get_query_return_type, get_query_by_name. rewrite Hq. simpl.
    assert (forall acc', (forall k, k ∈ map fst acc' ->
                            k ∈ map fst acc \/ k = field_name f) ->
              (exists r, query_field_map_loop types fs acc' = Return r
                 /\ NoDup (map fst r)
                 /\ (forall k, k ∈ map fst r ->
                       k ∈ map fst acc' \/ k ∈ map field_name fs)
                 /\ (forall k e, (k, e) ∈ r ->
                       truthy_str (Some (qi_return_type e)) = true
                       /\ qi_fields e
                          = required_fields (_build_types_map types)
                              (Some (qi_return_type e)))) ->
              exists r, query_field_map_loop types fs acc' = Return r
                 /\ NoDup (map fst r)
                 /\ (forall k, k ∈ map fst r ->
                       k ∈ map fst acc \/ k ∈ field_name f :: map field_name fs)
                 /\ (forall k e, (k, e) ∈ r ->
                       truthy_str (Some (qi_return_type e)) = true
                       /\ qi_fields e
                          = required_fields (_build_types_map types)
                              (Some (qi_return_type e)))) as Hstep.
    { intros acc' Hkeys (r & Hr & Hndr & Hkr & Her). exists r.
      split; [done|]. split; [done|]. split; [|done].
      intros k Hk. destruct (Hkr k Hk) as [Hk'|Hk'].
      - destruct (Hkeys k Hk') as [?| ->]; [auto|]. right. apply elem_of_cons. by left.
      - right. apply elem_of_cons. by right. }
    destruct (find_field (field_name f) qfs) as [g|]; simpl.
    + destruct (name_of (innermost (field_type g))) as [T|] eqn:HT; simpl.
      * destruct (String.eqb T "") eqn:HTe; simpl.
        -- apply Hstep; [auto|]. by apply IH.
        -- apply Hstep.
           ++ intros k Hk%dict_set_keys_elem. tauto.
           ++ apply IH; [|by apply dict_set_keys_NoDup].
              intros k e [[-> ->]|Hin]%dict_set_elem; [|by eapply Hacc].
              simpl. by rewrite HTe.
      * apply Hstep; [auto|]. by apply IH.
    + apply Hstep; [auto|]. by apply IH.
Qed.

(** X10: [generate_query_field_map] raises -- a [TypeError] -- exactly when
    the "fields" entry of the Query type is [null].  Otherwise it returns,
    with at most one entry per query name (also when the schema repeats a
    query name), every key the name of a query field, and every entry
    holding a non-empty return type together with the walker's field map
    for that type. *)
Theorem query_field_map_returns types :
  match get_query_fields types with
  | None => generate_query_field_map types = Raise none_not_iterable
  | Some qfs =>
      exists r,
        generate_query_field_map types = Return r
        /\ NoDup (map fst r)
        /\ (forall k e, (k, e) ∈ r ->
              k ∈ map field_name qfs
              /\ qi_return_type e <> ""
              /\ qi_fields e
                 = required_fields (_build_types_map types) (Some (qi_return_type e)))
  end.
Proof.
  unfold generate_query_field_map.
  destruct (get_query_fields types) as [qfs|] eqn:Hq; [|done].
  destruct (query_field_map_loop_returns types qfs qfs [] Hq) as (r & Hr & Hnd & Hk & He).
  - intros k e Hin. by apply elem_of_nil in Hin.
  - constructor.
  - exists r. split; [done|]. split; [done|]. intros k e Hin.
    destruct (He k e Hin) as [Ht Hf]. split; [|split; [|done]].
    + destruct (Hk k) as [Hnil|?]; [|by apply elem_of_nil in Hnil|done].
      apply list_elem_of_fmap. by exists (k, e).
    + intros Hempty. simpl in Ht. by rewrite Hempty in Ht.
Qed.

(** X11: the two places that look for the type under the wrappers agree on
    descriptors whose wrappers carry no name: [_extract_inner_type], which
    the walker recurses on, finds the name of the innermost descriptor, which
    is what [get_query_return_type] takes as a query's return type (an empty
    name counting as none). *)
Theorem inner_type_is_innermost :
  forall t,
    wrappers_unnamed t ->
    _extract_inner_type t
    = if truthy_str (name_of (innermost t)) then name_of (innermost t) else None.
Proof.
  fix IH 1. intros [kind name [u|]]; simpl.
  - intros [-> Hu]. by apply IH.
  - intros _. by destruct (truthy_str name).
Qed.

Lemma inner_type_is_innermost_witness :
  _extract_inner_type (non_null (list_of (non_null (object_type "Variant"))))
  = Some "Variant"
  /\ name_of (innermost (non_null (list_of (non_null (object_type "Variant")))))
     = Some "Variant".
Proof.
  split; [|reflexivity].
  rewrite (inner_type_is_innermost
             (non_null (list_of (non_null (object_type "Variant"))))); [reflexivity|].
  simpl. auto.
Defined.

(** ** More on the synthesizer *)

(** X12: the two renderers agree.  On every descriptor whose wrappers carry
    their [ofType] and whose innermost type has a name or a kind,
    [type_to_gql] of [schema2query.py] returns the very text
    [_type_to_string] of the analyzer records in the field map. *)
Theorem renderers_agree :
  forall t, renders_text t = true -> type_to_gql t = Return (_type_to_string (Some t)).
Proof.
  fix IH 1. intros [kind name ofType]. cbn [renders_text type_to_gql _type_to_string
    type_to_string_dict].
  destruct (opt_str_is kind "NON_NULL"); cbn [orb].
  - destruct ofType as [u|]; [|discriminate]. intros Hu. by rewrite (IH u Hu).
  - destruct (opt_str_is kind "LIST"); cbn [orb].
    + destruct ofType as [u|]; [|discriminate]. intros Hu. by rewrite (IH u Hu).
    + destruct (truthy_str name); [done|]. cbn [orb]. by intros ->.
Qed.

Lemma renderers_agree_witness :
  type_to_gql (non_null (list_of (non_null (scalar_type "String"))))
  = Return "[String!]!"
  /\ _type_to_string (Some (non_null (list_of (non_null (scalar_type "String")))))
     = "[String!]!".
Proof.
  split; [|reflexivity].
  rewrite (renderers_agree (non_null (list_of (non_null (scalar_type "String")))));
    reflexivity.
Defined.

Lemma type_to_gql_closed :
  forall t,
    if wrappers_closed t then exists s, type_to_gql t = Return s
    else type_to_gql t = Raise none_has_no_get.
Proof.
  fix IH 1. intros [kind name ofType]. cbn [wrappers_closed type_to_gql].
  destruct (opt_str_is kind "NON_NULL"); cbn [orb].
  - destruct ofType as [u|]; [|done]. specialize (IH u).
    destruct (wrappers_closed u); [destruct IH as [s ->]; by eexists | by rewrite IH].
  - destruct (opt_str_is kind "LIST"); cbn [orb].
    + destruct ofType as [u|]; [|done]. specialize (IH u).
      destruct (wrappers_closed u); [destruct IH as [s ->]; by eexists | by rewrite IH].
    + destruct (truthy_str name); [by eexists|].
      destruct (truthy_str kind); by eexists.
Qed.

Lemma arg_defs_closed args :
  if forallb (fun a => wrappers_closed (arg_type a)) args
  then exists ds, arg_defs args = Return ds
  else arg_defs args = Raise none_has_no_get.
Proof.
  induction args as [|a args IH]; simpl; [by eexists|].
  pose proof (type_to_gql_closed (arg_type a)) as Ha.
  destruct (wrappers_closed (arg_type a)); simpl.
  - destruct Ha as [s ->]. simpl.
    destruct (forallb _ args); [destruct IH as [ds ->]; by eexists | by rewrite IH].
  - by rewrite Ha.
Qed.

(** X13: [generate_query] fails in one way only.  If some argument type has
    a NON_NULL or LIST wrapper without its [ofType], the call raises the
    [AttributeError] of [None.get]; otherwise it returns a document,
    whatever the field map holds. *)
Theorem generate_query_fails_on_open_wrapper query_name info :
  if forallb (fun a => wrappers_closed (arg_type a)) (q_args info)
  then exists text, generate_query query_name info = Return text
  else generate_query query_name info = Raise none_has_no_get.
Proof.
  unfold generate_query, build_args.
  pose proof (arg_defs_closed (q_args info)) as Hargs.
  destruct (q_args info) as [|a args] eqn:Ha; [by eexists|].
  destruct (forallb _ (a :: args)).
  - destruct Hargs as [ds ->]. by eexists.
  - by rewrite Hargs.
Qed.

(** ** More on the walker *)

Section WalkerShape.

Variable types_map : gmap string type_def.

Lemma collect_fields_in_order
    (w : option string -> visited_set -> option (field_map * visited_set)) :
  forall fs acc V fm V',
    collect_fields w fs acc V = Some (fm, V') ->
    NoDup (map field_name fs) ->
    (forall k, k ∈ map fst acc -> k ∉ map field_name fs) ->
    exists es, fm = (acc ++ es)%list /\ Forall2 reflects fs es.
Proof.
  induction fs as [|f fs IH]; intros acc V fm V'; simpl.
  - intros [= <- _] _ _. exists []. by rewrite app_nil_r.
  - intros Hc Hnd Hacc. apply NoDup_cons in Hnd as [Hf Hnd].
    assert (field_name f ∉ map fst acc) as Hfresh.
    { intros Hin. apply (Hacc _ Hin). apply elem_of_cons. by left. }
    assert (forall e, forall k,
               k ∈ map fst (dict_set (field_name f) e acc) ->
               k ∉ map field_name fs) as Hacc'.
    { intros e k [->|Hin]%dict_set_keys_elem; [done|].
      intros Hk. apply (Hacc _ Hin). apply elem_of_cons. by right. }
    destruct (is_scalar (_extract_inner_type (field_type f))) eqn:Hs; simpl in Hc.
    + apply IH in Hc as (es & -> & Hes); [|done|apply Hacc'].
      rewrite dict_set_fresh by done. rewrite <- app_assoc. eexists. split; [done|].
      constructor; [|done]. eexists. split; [reflexivity|done].
    + destruct (w _ V) as [[sub V1]|]; [|done].
      apply IH in Hc as (es & -> & Hes); [|done|apply Hacc'].
      rewrite dict_set_fresh by done. rewrite <- app_assoc. eexists. split; [done|].
      constructor; [|done]. eexists. split; [reflexivity|]. by rewrite Hs.
Qed.

(** X14: the walker keeps the declaration order.  For a defined,
    non-scalar type whose fields have distinct names, a top-level call
    returns one entry per declared field, in the order of the declaration;
    each entry has the field's name, its rendered type, its description
    ("" when there is none) and its arguments, and a field whose inner type
    is a scalar has no subfields. *)
Theorem walker_fields_in_order T fs :
  is_scalar (Some T) = false ->
  T <> "" ->
  types_map !! T = Some {| type_fields := Some fs |} ->
  NoDup (map field_name fs) ->
  exists fm,
    get_required_fields_for_type types_map (Some T) = Some fm
    /\ Forall2 reflects fs fm.
Proof.
  intros Hs HT Hdef Hnd.
  destruct (get_required_fields_for_type_total types_map (Some T)) as [fm Hfm].
  exists fm. split; [done|].
  unfold get_required_fields_for_type in Hfm.
  destruct (walk types_map (S (size types_map)) (Some T) ∅) as [[fm' V']|] eqn:Hw;
    [|done].
  injection Hfm as ->. cbn [walk] in Hw.
  rewrite bool_decide_eq_false_2 in Hw by set_solver.
  rewrite Hs, (truthy_str_Some T HT) in Hw. cbn [orb negb types_map_get] in Hw.
  rewrite Hdef in Hw. cbn [type_fields] in Hw.
  apply collect_fields_in_order in Hw as (es & -> & Hes); [done|done|].
  intros k Hk. by apply elem_of_nil in Hk.
Qed.

(** Nested and top-level forms of the invariant on subfields. *)
Lemma subfields_nonempty_some t d args l :
  subfields_nonempty (FieldInfo t d args (Some l))
  <-> l <> [] /\ all_subfields_nonempty l.
Proof. reflexivity. Qed.

Lemma dict_set_all_subfields_nonempty k i m :
  subfields_nonempty i -> all_subfields_nonempty m ->
  all_subfields_nonempty (dict_set k i m).
Proof.
  intros Hi. induction m as [|[k' x] m IH]; simpl; [done|].
  intros [Hx Hm]. destruct (String.eqb k k'); simpl; auto.
Qed.

Lemma collect_fields_subfields_nonempty
    (w : option string -> visited_set -> option (field_map * visited_set)) :
  (forall t V fm V', w t V = Some (fm, V') -> all_subfields_nonempty fm) ->
  forall fs acc V fm V',
    collect_fields w fs acc V = Some (fm, V') ->
    all_subfields_nonempty acc -> all_subfields_nonempty fm.
Proof.
  intros Hw. induction fs as [|f fs IH]; intros acc V fm V'; simpl.
  - by intros [= <- _].
  - destruct (negb (is_scalar (_extract_inner_type (field_type f)))).
    + destruct (w _ V) as [[sub V1]|] eqn:E; [|done].
      intros Hc Hacc. apply IH in Hc; [done|].
      apply dict_set_all_subfields_nonempty; [|done].
      apply Hw in E. destruct sub as [|e sub]; [done|].
      by apply subfields_nonempty_some.
    + intros Hc Hacc. apply IH in Hc; [done|].
      by apply dict_set_all_subfields_nonempty.
Qed.

Lemma walk_subfields_nonempty n type_name V fm V' :
  walk types_map n type_name V = Some (fm, V') -> all_subfields_nonempty fm.
Proof.
  revert type_name V fm V'. induction n as [|n IH]; intros t V fm V'; [done|].
  simpl. destruct (bool_decide (t ∈ V)); [by intros [= <- _]|].
  destruct (is_scalar t || negb (truthy_str t)); [by intros [= <- _]|].
  destruct (types_map_get types_map t) as [d|]; [|by intros [= <- _]].
  destruct (type_fields d) as [fs|]; [|by intros [= <- _]].
  intros Hc. by apply (collect_fields_subfields_nonempty _ IH) in Hc.
Qed.

(** X15: in a field map of the walker, at every depth, an entry has
    subfields only if they are not empty: the "subfields" key is never
    present with an empty map, on any schema and for any type. *)
Theorem walker_subfields_never_empty type_name :
  exists fm,
    get_required_fields_for_type types_map type_name = Some fm
    /\ all_subfields_nonempty fm.
Proof.
  destruct (get_required_fields_for_type_total types_map type_name) as [fm Hfm].
  exists fm. split; [done|].
  unfold get_required_fields_for_type in Hfm.
  destruct (walk types_map (S (size types_map)) type_name ∅) as [[fm' V']|] eqn:Hw;
    [|done].
  injection Hfm as ->. by apply walk_subfields_nonempty in Hw.
Qed.

End WalkerShape.

Lemma walker_fields_in_order_witness :
  exists fm,
    get_required_fields_for_type tm_siblings (Some "Root") = Some fm
    /\ Forall2 reflects
         [plain_field "a" (object_type "C"); plain_field "b" (object_type "C")] fm.
Proof.
  apply (walker_fields_in_order tm_siblings "Root").
  - reflexivity.
  - apply String.eqb_neq. reflexivity.
  - vm_compute. reflexivity.
  - apply NoDup_cons. split.
    + intros Hin%list_elem_of_singleton. revert Hin. apply String.eqb_neq. reflexivity.
    + apply NoDup_singleton.
Defined.

Section WalkerDepth.

Variable types_map : gmap string type_def.

Local Abbreviation unvisited := (unvisited_types types_map).

Lemma depth_dict_set k i m :
  depth (dict_set k i m) <= Nat.max (depth_info i) (depth m).
Proof.
  induction m as [|[k' x] m IH]; simpl; [lia|].
  destruct (String.eqb k k'); simpl; lia.
Qed.

Lemma depth_info_some t d args l : depth_info (FieldInfo t d args (Some l)) = S (depth l).
Proof. reflexivity. Qed.

Lemma collect_fields_depth (b : nat)
    (w : option string -> visited_set -> option (field_map * visited_set)) :
  (forall t V fm V', w t V = Some (fm, V') ->
     V ⊆ V' /\ (fm <> [] -> S (depth fm) <= size (unvisited V))) ->
  forall fs acc V fm V',
    collect_fields w fs acc V = Some (fm, V') ->
    depth acc <= b -> size (unvisited V) <= b -> depth fm <= b.
Proof.
  intros Hw. induction fs as [|f fs IH]; intros acc V fm V'; simpl.
  - by intros [= <- _].
  - destruct (negb (is_scalar (_extract_inner_type (field_type f)))).
    + destruct (w _ V) as [[sub V1]|] eqn:E; [|done].
      apply Hw in E as [Hsub Hdepth].
      intros Hc Hacc HV. apply IH in Hc; [done| |].
      * etrans; [apply depth_dict_set|]. apply Nat.max_lub; [|done].
        destruct sub as [|e sub]; [simpl; lia|].
        rewrite depth_info_some. etrans; [apply Hdepth; done|done].
      * pose proof (unvisited_mono types_map _ _ Hsub). lia.
    + intros Hc Hacc HV. apply IH in Hc; [done| |done].
      etrans; [apply depth_dict_set|]. simpl. lia.
Qed.

Lemma walk_depth n type_name V fm V' :
  walk types_map n type_name V = Some (fm, V') ->
  fm <> [] -> S (depth fm) <= size (unvisited V).
Proof.
  revert type_name V fm V'. induction n as [|n IH]; intros t V fm V'; [done|].
  simpl. case_bool_decide as Hin; [by intros [= <- _]|].
  destruct (is_scalar t || negb (truthy_str t)); [by intros [= <- _]|].
  destruct (types_map_get types_map t) as [d|] eqn:Hd; [|by intros [= <- _]].
  destruct (type_fields d) as [fs|]; [|by intros [= <- _]].
  intros Hc _. destruct t as [s|]; [|done]. simpl in Hd.
  pose proof (unvisited_mark types_map s V _ Hd Hin) as Hlt.
  apply (collect_fields_depth (size (unvisited ({[ Some s ]} ∪ V)))) in Hc;
    [lia| |simpl; lia|done].
  intros t' W fm' W' Hw. split.
  - exact (proj1 (walk_visited _ _ _ _ _ _ Hw)).
  - intros Hne. exact (IH _ _ _ _ Hw Hne).
Qed.

(** X16: the nesting depth of a field map of the walker is less than the
    number of type definitions of the schema: every level below the top
    belongs to a further type, and no type is entered twice.  (An empty
    field map has depth 0.) *)
Theorem walker_depth_bounded type_name :
  exists fm,
    get_required_fields_for_type types_map type_name = Some fm
    /\ (fm = [] \/ depth fm < size types_map).
Proof.
  destruct (get_required_fields_for_type_total types_map type_name) as [fm Hfm].
  exists fm. split; [done|].
  unfold get_required_fields_for_type in Hfm.
  destruct (walk types_map (S (size types_map)) type_name ∅) as [[fm' V']|] eqn:Hw;
    [|done].
  injection Hfm as ->. destruct fm as [|e fm]; [by left|]. right.
  apply walk_depth in Hw; [|done].
  pose proof (unvisited_bound types_map). lia.
Qed.

End WalkerDepth.

(** ** The rendered type text is unambiguous *)

Lemma append_cons c s x : String c s +:+ x = String c (s +:+ x).
Proof. reflexivity. Qed.

Lemma append_char_inj s1 s2 c :
  s1 +:+ String c EmptyString = s2 +:+ String c EmptyString -> s1 = s2.
Proof.
  revert s2. induction s1 as [|a s1 IH]; intros [|b s2]; try done.
  - rewrite append_cons. intros [= _ H]. by destruct s2.
  - rewrite append_cons. intros [= _ H]. by destruct s1.
  - rewrite !append_cons. intros [= -> H]. f_equal. by apply IH.
Qed.

Lemma last_char_append s c : last_char (s +:+ String c EmptyString) = Some c.
Proof.
  induction s as [|a s IH]; [done|]. rewrite append_cons.
  destruct s as [|b s]; [done|]. rewrite append_cons in *. exact IH.
Qed.

Lemma last_char_plain n c :
  plain_name n = true -> last_char n = Some c ->
  c <> "]"%char /\ c <> "!"%char.
Proof.
  induction n as [|a n IH]; [done|]. simpl.
  intros (((_ & Hb)%andb_true_iff & Hbang)%andb_true_iff & Hn)%andb_true_iff.
  destruct n as [|b n].
  - intros [= <-]. apply negb_true_iff in Hb, Hbang.
    split; intros ->; discriminate.
  - by apply IH.
Qed.

Lemma last_char_nonempty s : s <> "" -> exists c, last_char s = Some c.
Proof.
  induction s as [|a s IH]; [done|]. intros _.
  destruct s as [|b s]; [by exists a|]. apply IH. discriminate.
Qed.

Lemma gql_syntax_last t :
  plain_names t ->
  match t with
  | GNamed n => exists c, last_char (gql_syntax t) = Some c
                          /\ c <> "]"%char /\ c <> "!"%char
  | GList _ => last_char (gql_syntax t) = Some "]"%char
  | GNonNull _ => last_char (gql_syntax t) = Some "!"%char
  end.
Proof.
  destruct t as [n|t|t]; cbn [gql_syntax plain_names].
  - intros [Hne Hp]. destruct (last_char_nonempty n Hne) as [c Hc].
    exists c. split; [done|]. by apply (last_char_plain n).
  - intros _. rewrite <- append_assoc. apply last_char_append.
  - intros _. apply last_char_append.
Qed.

Lemma gql_syntax_inj t1 t2 :
  plain_names t1 -> plain_names t2 -> gql_syntax t1 = gql_syntax t2 -> t1 = t2.
Proof.
  revert t2. induction t1 as [n1|t1 IH|t1 IH]; intros t2 H1 H2 Heq;
    pose proof (gql_syntax_last _ H2) as L2;
    [pose proof (gql_syntax_last (GNamed n1) H1) as L1
    |pose proof (gql_syntax_last (GList t1) H1) as L1
    |pose proof (gql_syntax_last (GNonNull t1) H1) as L1];
    rewrite Heq in L1; destruct t2 as [n2|t2|t2].
  - simpl in Heq. by subst.
  - destruct L1 as (c & Hc & Hb & _). rewrite L2 in Hc. by injection Hc as <-.
  - destruct L1 as (c & Hc & _ & Hb). rewrite L2 in Hc. by injection Hc as <-.
  - destruct L2 as (c & Hc & Hb & _). rewrite L1 in Hc. by injection Hc as <-.
  - simpl in Heq. rewrite !append_cons in Heq. injection Heq as Heq.
    change (String.append EmptyString ?x) with x in Heq.
    apply append_char_inj in Heq. f_equal. by apply IH.
  - rewrite L2 in L1. discriminate.
  - destruct L2 as (c & Hc & _ & Hb). rewrite L1 in Hc. by injection Hc as <-.
  - rewrite L2 in L1. discriminate.
  - simpl in Heq. apply append_char_inj in Heq. f_equal. by apply IH.
Qed.

Lemma plain_names_nonempty t : plain_names t -> names_nonempty t.
Proof. induction t; simpl; tauto. Qed.

(** X17: the rendering of types is unambiguous.  Two GraphQL types, built
    from names free of the characters "[", "]" and "!", whose descriptors
    [type_to_gql] renders to the same text are the same type: the text
    determines the name and every wrapper, in order. *)
Theorem type_to_gql_unambiguous named_kind t1 t2 :
  named_kind <> "NON_NULL" -> named_kind <> "LIST" ->
  plain_names t1 -> plain_names t2 ->
  type_to_gql (descriptor named_kind t1) = type_to_gql (descriptor named_kind t2) ->
  t1 = t2.
Proof.
  intros Hnn Hl H1 H2.
  rewrite !type_to_gql_descriptor by auto using plain_names_nonempty.
  intros [= Heq]. by apply gql_syntax_inj.
Qed.

(** ** Examples for the further properties *)

Lemma restricted_tools_pass_validation_witness :
  call_tool (StrInfo (PyStr "GRCh37") (PyStr "ATXN1") (PyStr "gnomad_r4"))
  = Server.Dispatch "short_tandem_repeat"
      (<[ "dataset" := PyStr "gnomad_r4" ]>
       (<[ "reference_genome" := PyStr "GRCh37" ]>
        (<[ "id" := PyStr "ATXN1" ]> ∅)))
  /\ run_query _ store_all echo_transport "short_tandem_repeat"
       (<[ "dataset" := PyStr "gnomad_r4" ]>
        (<[ "reference_genome" := PyStr "GRCh37" ]>
         (<[ "id" := PyStr "ATXN1" ]> ∅)))
     = load_and_execute _ store_all echo_transport (PyStr "v4") "short_tandem_repeat"
         (<[ "dataset" := PyStr "gnomad_r4" ]>
          (<[ "reference_genome" := PyStr "GRCh37" ]>
           (<[ "id" := PyStr "ATXN1" ]> ∅))).
Proof.
  split; [reflexivity|].
  apply (restricted_tools_pass_validation store_all echo_transport
           (StrInfo (PyStr "GRCh37") (PyStr "ATXN1") (PyStr "gnomad_r4")));
    reflexivity.
Defined.

Lemma tools_never_pass_version_hint_witness :
  (<[ "dataset" := PyStr "gnomad_sv_r4" ]>
   (<[ "reference_genome" := PyStr "GRCh38" ]>
    (<[ "variantId" := PyStr "DEL_CHR19_354EAFA6" ]> (∅ : gmap string pyval))))
    !! "version" = None.
Proof.
  apply (tools_never_pass_version_hint
           (StructuralVariantInfo (PyStr "gnomad_sv_r4") (PyStr "GRCh38")
              (PyStr "DEL_CHR19_354EAFA6"))
           "structural_variant").
  reflexivity.
Defined.


(** The query field map of the example schema, and the document
    synthesized from its first entry. *)
Example example_query_field_map :
  generate_query_field_map example_schema
  = Return
      [("variant",
        {| qi_return_type := "Variant";
           qi_description := PyStr "A variant";
           qi_args := [ {| arg_name := "variantId";
                           arg_type := non_null (scalar_type "String") |} ];
           qi_fields := [("variant_id", leaf "String!");
                         ("gene", node "Gene"
                                    [("symbol", leaf "String");
                                     ("variants", leaf "[Variant]")])] |});
       ("genes",
        {| qi_return_type := "Gene";
           qi_description := PyStr "";
           qi_args := [];
           qi_fields := [("symbol", leaf "String");
                         ("variants", node "[Variant]"
                                        [("variant_id", leaf "String!");
                                         ("gene", leaf "Gene")])] |})].
Proof. vm_compute. reflexivity. Qed.

Example example_query_document :
  generate_query "genes"
    {| q_args := [];
       q_fields := [("symbol", leaf "String");
                    ("variants", node "[Variant]"
                                   [("variant_id", leaf "String!");
                                    ("gene", leaf "Gene")])] |}
  = Return (join nl
      ["query genes {";
       "    genes {";
       "    symbol";
       "    variants {";
       "      variant_id";
       "      gene";
       "    }";
       "    }";
       "}";
       ""]).
Proof. vm_compute. reflexivity. Qed.

Lemma type_to_gql_unambiguous_witness :
  type_to_gql (descriptor "OBJECT" (GList (GNonNull (GNamed "Variant"))))
  <> type_to_gql (descriptor "OBJECT" (GNonNull (GList (GNamed "Variant")))).
Proof.
  intros Heq.
  apply (type_to_gql_unambiguous "OBJECT"
           (GList (GNonNull (GNamed "Variant")))
           (GNonNull (GList (GNamed "Variant")))) in Heq.
  - discriminate Heq.
  - apply String.eqb_neq. reflexivity.
  - apply String.eqb_neq. reflexivity.
  - split; [apply String.eqb_neq|]; reflexivity.
  - split; [apply String.eqb_neq|]; reflexivity.
Defined.

(** ** What a client of the tools can see *)

Lemma tool_rejections_are_value_errors c e :
  call_tool c = Server.Rejected e -> exists msg, e = ValueError msg.
Proof.
  destruct c; cbn [call_tool]; try discriminate.
  - unfold get_gene_info. repeat case_match; try discriminate; intros [= <-]; eauto.
  - unfold get_region_info. repeat case_match; try discriminate; intros [= <-]; eauto.
  - unfold get_mitochondrial_variant_info.
    repeat case_match; try discriminate; intros [= <-]; eauto.
  - unfold get_copy_number_variant_info.
    repeat case_match; try discriminate; intros [= <-]; eauto.
  - unfold get_str_info. repeat case_match; try discriminate; intros [= <-]; eauto.
  - rewrite liftover_cases. repeat case_match; try discriminate; intros [= <-]; eauto.
Qed.

(** X18: the only exceptions a tool lets through are its own validation
    errors.  Run against the dispatcher with metadata, a tool call either
    raises the [ValueError] of one of the tool's checks, before anything is
    dispatched, or returns an envelope for the tool's query name and
    variables -- whatever goes wrong in version resolution, validation,
    document lookup or transport ends up in the envelope's response. *)
Theorem tools_raise_only_validation_errors {json : Type}
    (read_file : string -> option string)
    (execute_query_sync : string -> gmap string pyval -> outcome json) c :
  match call_tool c with
  | Server.Rejected e =>
      Server.run_tool (run_query_with_metadata json read_file execute_query_sync)
        (call_tool c) = Raise e
      /\ exists msg, e = ValueError msg
  | Server.Dispatch q variables =>
      exists response,
        Server.run_tool (run_query_with_metadata json read_file execute_query_sync)
          (call_tool c)
        = Return {| endpoint := GNOMAD_API_URL;
                    request_query := q;
                    request_variables := variables;
                    response_of := response |}
  end.
Proof.
  destruct (call_tool c) as [e|q variables] eqn:Hc.
  - split; [reflexivity|]. by apply (tool_rejections_are_value_errors c).
  - cbn [Server.run_tool]. unfold run_query_with_metadata.
    destruct (run_query json read_file execute_query_sync q variables); simpl; eauto.
Qed.
